(** * book-tracker-api: the Google Books fetcher and normalizer of [main.py]

    A shallow embedding of [normalize_item], [fetch_books], [to_dataframe]
    and [main], followed by the properties of the specification that concern
    them and by further properties of the code.

    Python values that come out of [resp.json()] are modelled by the type
    [json]; Python's unbounded [int] is [Z]; a [dict] is an association list
    in insertion order (the order matters for the row's field order); an
    exception is a value of [exn] carried by the error monad [result].  The
    HTTP endpoint is a parameter of the model: a function giving the reply to
    the n-th request.  [time.sleep] changes no value and is left out.  Of
    [main], the parsing of the command line and the rendering of the frame
    (CSV text, console preview) belong to libraries and are not modelled:
    [main] starts from the parsed arguments and ends in a list of effects. *)

From Stdlib Require Import ZArith List String Ascii Bool Lia.
From Stdlib Require Import SpecFloat DecimalString Permutation Sorted.
Import ListNotations.
Local Open Scope string_scope.
Local Open Scope list_scope.
Local Open Scope Z_scope.

(** ** Python values *)

(** What [json.loads] can produce.  A float is kept in the Standard
    Library's IEEE 754 specification type: only its being zero matters
    (truthiness). *)
#[local] Set Warnings "-register-all".
Inductive json : Type :=
| JNull
| JBool (b : bool)
| JInt (n : Z)
| JFloat (f : spec_float)
| JStr (s : string)
| JList (l : list json)
| JDict (d : list (string * json)).

Definition pydict := list (string * json).

(** The exceptions the modelled code can raise. *)
Inductive exn : Type :=
| AttributeError                (* [.get] on a value that is not a dict *)
| TypeError                     (* [", ".join] on a non-str element; iterating a non-iterable *)
| JSONDecodeError               (* [resp.json()] on a body that is not JSON *)
| RequestException              (* [requests.get] itself failing (transport) *)
| RuntimeError (msg : string).  (* the [raise RuntimeError(...)] of [fetch_books] *)

(** ** The error monad *)

Inductive result (A : Type) : Type :=
| Ok (a : A)
| Err (e : exn).
Arguments Ok {A} a.
Arguments Err {A} e.

Definition bind {A B : Type} (m : result A) (k : A -> result B) : result B :=
  match m with
  | Ok a => k a
  | Err e => Err e
  end.

Notation "x <- m ;; k" := (bind m (fun x => k))
  (at level 61, m at next level, right associativity).

Fixpoint mapM {A B : Type} (f : A -> result B) (l : list A) : result (list B) :=
  match l with
  | [] => Ok []
  | a :: l' => b <- f a ;; bs <- mapM f l' ;; Ok (b :: bs)
  end.

(** ** Python primitives used by the source *)

(** [bool(v)]: the truth value Python's [or], [if] and [not] test. *)
Definition truthy (v : json) : bool :=
  match v with
  | JNull => false
  | JBool b => b
  | JInt n => negb (n =? 0)
  | JFloat (S754_zero _) => false
  | JFloat _ => true
  | JStr s => negb (String.eqb s "")
  | JList l => match l with [] => false | _ => true end
  | JDict d => match d with [] => false | _ => true end
  end.

(** [a or b] *)
Definition py_or (a b : json) : json := if truthy a then a else b.

Fixpoint lookup (k : string) (d : pydict) : option json :=
  match d with
  | [] => None
  | (k', v) :: d' => if String.eqb k k' then Some v else lookup k d'
  end.

(** [d.get(k, dflt)] on a dict. *)
Definition dict_get_default (d : pydict) (k : string) (dflt : json) : json :=
  match lookup k d with
  | Some v => v
  | None => dflt
  end.

(** [d.get(k)] on a dict: [None] when the key is missing. *)
Definition dict_get (d : pydict) (k : string) : json := dict_get_default d k JNull.

(** [v.get(k, dflt)] on an arbitrary value: only a dict has the method. *)
Definition py_get_default (v : json) (k : string) (dflt : json) : result json :=
  match v with
  | JDict d => Ok (dict_get_default d k dflt)
  | _ => Err AttributeError
  end.

Definition py_get (v : json) (k : string) : result json := py_get_default v k JNull.

(** The elements of [", ".join(l)] must all be [str]. *)
Definition as_str (v : json) : result string :=
  match v with
  | JStr s => Ok s
  | _ => Err TypeError
  end.

(** [", ".join(l)] *)
Definition comma_join (l : list json) : result json :=
  ss <- mapM as_str l ;; Ok (JStr (String.concat ", " ss)).

(** [", ".join(v) if isinstance(v, list) else v] *)
Definition join_if_list (v : json) : result json :=
  match v with
  | JList l => comma_join l
  | _ => Ok v
  end.

(** [for x in v]: a list yields its elements, a str its one-character
    strings, a dict its keys; nothing else is iterable. *)
Definition py_iter (v : json) : result (list json) :=
  match v with
  | JList l => Ok l
  | JStr s => Ok (map (fun c => JStr (String c EmptyString)) (list_ascii_of_string s))
  | JDict d => Ok (map (fun kv => JStr (fst kv)) d)
  | _ => Err TypeError
  end.

(** ** [normalize_item] *)

(** A row is the dict literal that [normalize_item] returns, in insertion
    order. *)
Definition row := pydict.

Definition normalize_item (item : json) : result row :=
  volume0 <- py_get_default item "volumeInfo" (JDict []) ;;
  let volume := py_or volume0 (JDict []) in
  sale0 <- py_get_default item "saleInfo" (JDict []) ;;
  let sale := py_or sale0 (JDict []) in
  access0 <- py_get_default item "accessInfo" (JDict []) ;;
  let access := py_or access0 (JDict []) in
  authors0 <- py_get volume "authors" ;;
  let authors := py_or authors0 (JList []) in
  categories0 <- py_get volume "categories" ;;
  let categories := py_or categories0 (JList []) in
  id <- py_get item "id" ;;
  title <- py_get volume "title" ;;
  subtitle <- py_get volume "subtitle" ;;
  authors' <- join_if_list authors ;;
  publisher <- py_get volume "publisher" ;;
  publishedDate <- py_get volume "publishedDate" ;;
  description <- py_get volume "description" ;;
  pageCount <- py_get volume "pageCount" ;;
  categories' <- join_if_list categories ;;
  averageRating <- py_get volume "averageRating" ;;
  ratingsCount <- py_get volume "ratingsCount" ;;
  language <- py_get volume "language" ;;
  infoLink <- py_get volume "infoLink" ;;
  previewLink <- py_get volume "previewLink" ;;
  canonicalVolumeLink <- py_get volume "canonicalVolumeLink" ;;
  isEbook <- py_get sale "isEbook" ;;
  webReaderLink <- py_get access "webReaderLink" ;;
  Ok [ ("id", id);
       ("title", title);
       ("subtitle", subtitle);
       ("authors", authors');
       ("publisher", publisher);
       ("publishedDate", publishedDate);
       ("description", description);
       ("pageCount", pageCount);
       ("categories", categories');
       ("averageRating", averageRating);
       ("ratingsCount", ratingsCount);
       ("language", language);
       ("infoLink", infoLink);
       ("previewLink", previewLink);
       ("canonicalVolumeLink", canonicalVolumeLink);
       ("isEbook", isEbook);
       ("webReaderLink", webReaderLink) ].

(** ** [to_dataframe] *)

(** A data frame: its column labels and, per row, one cell per column.  A
    cell is [None] where [reindex] finds no such key in the row (pandas fills
    it with NaN). *)
Record DataFrame : Type := {
  columns : list string;
  data : list (list (option json))
}.

(** The list [cols] of [to_dataframe]. *)
Definition cols : list string :=
  [ "id"; "title"; "subtitle"; "authors"; "publisher"; "publishedDate";
    "categories"; "pageCount"; "averageRating"; "ratingsCount";
    "language"; "infoLink"; "previewLink"; "canonicalVolumeLink";
    "isEbook"; "webReaderLink"; "description" ].

(** [pd.DataFrame(rows).reindex(columns=cols)] *)
Definition to_dataframe (rows : list row) : DataFrame :=
  {| columns := cols;
     data := map (fun r => map (fun c => lookup c r) cols) rows |}.

(** [df.drop(columns=["description"])], as [main] applies it under
    [--no-desc]. *)
Definition drop_description (df : DataFrame) : DataFrame :=
  let keep := map (fun c => negb (String.eqb c "description")) (columns df) in
  let pick {A} (l : list A) :=
    map snd (filter (fun bx => fst bx) (combine keep l)) in
  {| columns := pick (columns df);
     data := map (fun r => pick r) (data df) |}.

(** The header line [df.to_csv] writes: the column labels in order. *)
Definition csv_header (no_desc : bool) (rows : list row) : list string :=
  let df := to_dataframe rows in
  columns (if no_desc then drop_description df else df).

(** ** [fetch_books] *)

(** The query parameters of one [requests.get]; [key] is [None] when the
    dict [params] has no ["key"] entry. *)
Record params : Type := {
  q : string;
  startIndex : Z;
  maxResults : Z;
  key : option string
}.

(** What the source reads of a [requests.Response]: [resp.status_code],
    [resp.text] and [resp.json()], the latter [None] when the body does not
    parse. *)
Record response : Type := {
  status_code : Z;
  text : string;
  json_body : option json
}.

(** [requests.get] either returns a response or raises. *)
Inductive reply : Type :=
| Reply (r : response)
| ConnectionFailed.

(** The endpoint: the reply to the n-th request of a run (counted from 0),
    which may depend on the parameters sent. *)
Definition server := nat -> params -> reply.

Definition exchange : Type := params * reply.

Inductive outcome : Type :=
| Returned (rows : list row)
| Raised (e : exn)
| OutOfFuel.

(** [len(results)] *)
Definition len {A : Type} (l : list A) : Z := Z.of_nat (List.length l).

(** [str(n)] for an int. *)
Definition py_str_int (n : Z) : string := NilZero.string_of_int (Z.to_int n).

(** [s[:n]] *)
Definition py_prefix (n : nat) (s : string) : string := substring 0 n s.

(** [f"HTTP {resp.status_code}: {resp.text[:200]}"] *)
Definition http_error_message (r : response) : string :=
  ("HTTP " ++ py_str_int (status_code r) ++ ": " ++ py_prefix 200 (text r))%string.

(** [params["key"]] is set only under [if api_key:]. *)
Definition key_param (api_key : option string) : option string :=
  match api_key with
  | Some s => if truthy (JStr s) then Some s else None
  | None => None
  end.

(** [max(1, min(page_size, 40))] *)
Definition clamp_page_size (page_size : Z) : Z := Z.max 1 (Z.min page_size 40).

(** What one pass through the loop body does with a response: leave the loop
    ([Break]) or append rows and go on. *)
Inductive page : Type :=
| Break
| Rows (rows : list row).

(** Lines 65 to 74 of the source, from the status test to the end of the
    [for] loop. *)
Definition read_page (r : response) : result page :=
  if negb (status_code r =? 200) then Err (RuntimeError (http_error_message r))
  else
    data <- match json_body r with
            | Some d => Ok d
            | None => Err JSONDecodeError
            end ;;
    items0 <- py_get data "items" ;;
    let items := py_or items0 (JList []) in
    if negb (truthy items) then Ok Break
    else
      its <- py_iter items ;;
      rows <- mapM normalize_item its ;;
      Ok (Rows rows).

Section FetchLoop.

Variable http : server.
Variable query : string.
Variable api_key : option string.
Variable max_results : Z.
(** the page size after clamping *)
Variable page_size : Z.

(** The [while] loop.  [n] counts the requests issued so far; [fuel]
    bounds the number of iterations. *)
Fixpoint fetch_loop (fuel : nat) (n : nat) (results : list row) (start : Z)
  : list exchange * outcome :=
  if len results <? max_results then
    match fuel with
    | O => ([], OutOfFuel)
    | S fuel' =>
      let remaining := max_results - len results in
      let this_page := Z.min page_size remaining in
      let p := {| q := query; startIndex := start;
                  maxResults := this_page; key := key_param api_key |} in
      match http n p with
      | ConnectionFailed => ([(p, ConnectionFailed)], Raised RequestException)
      | Reply r =>
        match read_page r with
        | Err e => ([(p, Reply r)], Raised e)
        | Ok Break => ([(p, Reply r)], Returned results)
        | Ok (Rows rows) =>
          let (t, o) := fetch_loop fuel' (S n) (results ++ rows) (start + this_page) in
          ((p, Reply r) :: t, o)
        end
      end
    end
  else ([], Returned results).

End FetchLoop.

(** [fetch_books(q, api_key, max_results, page_size)].  The loop is given
    [max_results] iterations, which is shown below to be always enough. *)
Definition fetch_books (http : server) (query : string) (api_key : option string)
  (max_results page_size : Z) : list exchange * outcome :=
  fetch_loop http query api_key max_results (clamp_page_size page_size)
    (Z.to_nat max_results) 0 [] 0.

Definition requests (run : list exchange * outcome) : list params := map fst (fst run).
Definition replies (run : list exchange * outcome) : list reply := map snd (fst run).
Definition final (run : list exchange * outcome) : outcome := snd run.

(** ** [main] *)

(** The command line after [parser.parse_args()]: [--q], [--max],
    [--page-size], [--out] (the empty string when not given) and
    [--no-desc]. *)
Record args : Type := {
  arg_q : string;
  arg_max : Z;
  arg_page_size : Z;
  arg_out : string;
  arg_no_desc : bool
}.

(** [c.isspace()] for a character below 256: the characters [str.strip()]
    removes. *)
Definition is_space (c : ascii) : bool :=
  let n := nat_of_ascii c in
  ((9 <=? n) && (n <=? 13) || (28 <=? n) && (n <=? 32)
   || (n =? 133) || (n =? 160))%nat.

(** [s.lstrip()] *)
Fixpoint py_lstrip (s : string) : string :=
  match s with
  | EmptyString => EmptyString
  | String c s' => if is_space c then py_lstrip s' else s
  end.

(** [s.rstrip()] *)
Fixpoint py_rstrip (s : string) : string :=
  match s with
  | EmptyString => EmptyString
  | String c s' =>
    let t := py_rstrip s' in
    if is_space c && String.eqb t "" then EmptyString else String c t
  end.

(** [s.strip()] *)
Definition py_strip (s : string) : string := py_rstrip (py_lstrip s).

(** [os.getenv(name, dflt)] *)
Definition getenv (environ : string -> option string) (name dflt : string) : string :=
  match environ name with
  | Some v => v
  | None => dflt
  end.

(** [os.getenv("GOOGLE_BOOKS_API_KEY", "").strip() or None] *)
Definition api_key_of (environ : string -> option string) : option string :=
  let s := py_strip (getenv environ "GOOGLE_BOOKS_API_KEY" "") in
  if truthy (JStr s) then Some s else None.

(** [df.head(n)] *)
Definition df_head (n : nat) (df : DataFrame) : DataFrame :=
  {| columns := columns df; data := firstn n (data df) |}.

(** What [main] does to the outside, besides its HTTP requests. *)
Inductive effect : Type :=
| PrintStderr (s : string)
| PrintStdout (s : string)
| MakeDirs (path : string)                    (* [os.makedirs(path, exist_ok=True)] *)
| WriteCsv (df : DataFrame) (path : string)   (* [df.to_csv(path, index=False, ...)] *)
| PrintFrame (df : DataFrame).                (* [print(df)] under [option_context] *)

(** How [main] ends: [sys.exit(code)], falling off its end, an exception of
    the operating system that nothing catches, or the loop of [fetch_books]
    not having finished. *)
Inductive ending : Type :=
| SysExit (code : Z)
| Returns
| Uncaught
| Unfinished.

Section Main.

(** The endpoint. *)
Variable http : server.
(** [os.environ], after [load_dotenv()]. *)
Variable environ : string -> option string.
(** [os.path.dirname] *)
Variable dirname : string -> string.
(** Whether [os.makedirs(path, exist_ok=True)] returns ([true]) or raises. *)
Variable makedirs : string -> bool.
(** Whether [df.to_csv(path, ...)] returns ([true]) or raises. *)
Variable to_csv : DataFrame -> string -> bool.
(** [str(e)] for an exception raised by the Python runtime or by
    [requests]. *)
Variable builtin_str : exn -> string.

(** [str(e)] *)
Definition py_str_exn (e : exn) : string :=
  match e with
  | RuntimeError msg => msg
  | _ => builtin_str e
  end.

(** [main()], from the parsed arguments on: the exchanges with the
    endpoint, the effects in order, and the way it ends. *)
Definition main (a : args) : list exchange * list effect * ending :=
  let api_key := api_key_of environ in
  let run := fetch_books http (arg_q a) api_key (arg_max a) (arg_page_size a) in
  match final run with
  | OutOfFuel => (fst run, [], Unfinished)
  | Raised e =>
    (fst run,
     [PrintStderr ("[ERROR] Failed to fetch books: " ++ py_str_exn e)%string],
     SysExit 1)
  | Returned [] =>
    (fst run, [PrintStdout "[INFO] No results found."], SysExit 0)
  | Returned rows =>
    let df := to_dataframe rows in
    let df := if arg_no_desc a && existsb (String.eqb "description") (columns df)
              then drop_description df else df in
    if truthy (JStr (arg_out a)) then
      if makedirs (dirname (arg_out a)) then
        if to_csv df (arg_out a) then
          (fst run,
           [MakeDirs (dirname (arg_out a));
            WriteCsv df (arg_out a);
            PrintStdout ("[OK] Wrote " ++ py_str_int (len (data df))
                         ++ " rows to " ++ arg_out a)%string],
           Returns)
        else
          (fst run, [MakeDirs (dirname (arg_out a)); WriteCsv df (arg_out a)],
           Uncaught)
      else (fst run, [MakeDirs (dirname (arg_out a))], Uncaught)
    else (fst run, [PrintFrame (df_head 10 df)], Returns)
  end.

End Main.

(** * Vocabulary of the properties *)

(** ** Rows *)

(** The field names of a NormalizedRow in the order of section 3 of the
    specification: identifier, title, subtitle, authors, publisher,
    published date, description, page count, categories, average rating,
    ratings count, language, info link, preview link, canonical link,
    is-ebook flag, web-reader link. *)
Definition section3_fields : list string :=
  [ "id"; "title"; "subtitle"; "authors"; "publisher"; "publishedDate";
    "description"; "pageCount"; "categories"; "averageRating"; "ratingsCount";
    "language"; "infoLink"; "previewLink"; "canonicalVolumeLink";
    "isEbook"; "webReaderLink" ].

(** The value of [item.get(k, {}) or {}] for a dict [item]. *)
Definition sub_mapping (d : pydict) (k : string) : json :=
  py_or (dict_get_default d k (JDict [])) (JDict []).

(** The value [normalize_item] stores under ["authors"] and ["categories"]
    for the looked-up value [v]. *)
Definition joined_field (v : json) : result json :=
  join_if_list (py_or v (JList [])).

(** The row [normalize_item] builds from the item [d] once its three
    sub-mappings and its two joined fields are known. *)
Definition row_of (d vol sale acc : pydict) (authors categories : json) : row :=
  [ ("id", dict_get d "id");
    ("title", dict_get vol "title");
    ("subtitle", dict_get vol "subtitle");
    ("authors", authors);
    ("publisher", dict_get vol "publisher");
    ("publishedDate", dict_get vol "publishedDate");
    ("description", dict_get vol "description");
    ("pageCount", dict_get vol "pageCount");
    ("categories", categories);
    ("averageRating", dict_get vol "averageRating");
    ("ratingsCount", dict_get vol "ratingsCount");
    ("language", dict_get vol "language");
    ("infoLink", dict_get vol "infoLink");
    ("previewLink", dict_get vol "previewLink");
    ("canonicalVolumeLink", dict_get vol "canonicalVolumeLink");
    ("isEbook", dict_get sale "isEbook");
    ("webReaderLink", dict_get acc "webReaderLink") ].

(** The rule for the ["authors"] and ["categories"] fields, read off the
    source: [v] is the looked-up value ([JNull] when the key is missing),
    [w] the value stored in the row. *)
Inductive field_rule : json -> json -> Prop :=
| rule_falsy (v : json) :
    truthy v = false -> field_rule v (JStr "")
| rule_list (ss : list string) :
    ss <> [] -> field_rule (JList (map JStr ss)) (JStr (String.concat ", " ss))
| rule_other (v : json) :
    truthy v = true -> (forall l, v <> JList l) -> field_rule v v.

(** The row of the empty item [{}]: every field [None], except the two
    joined fields, which hold the empty string. *)
Definition empty_item_row : row :=
  map (fun k => (k, if String.eqb k "authors" || String.eqb k "categories"
                    then JStr "" else JNull))
      section3_fields.

(** ** Exceptions *)

(** [m] raises nothing but exceptions satisfying [P]. *)
Definition raises_only {A : Type} (P : exn -> Prop) (m : result A) : Prop :=
  match m with
  | Ok _ => True
  | Err e => P e
  end.

(** The exceptions of the Python runtime, as opposed to the one
    [fetch_books] raises itself. *)
Definition builtin_error (e : exn) : Prop :=
  e = AttributeError \/ e = TypeError.

(** ** Pages and traces *)

(** The page responses the specification calls empty: status 200 and an
    envelope whose ["items"] is missing, null or the empty list. *)
Definition empty_page (r : response) : Prop :=
  status_code r = 200 /\
  exists d, json_body r = Some (JDict d) /\
            (lookup "items" d = None \/
             lookup "items" d = Some JNull \/
             lookup "items" d = Some (JList [])).

(** The rows a reply contributes to the result. *)
Definition rows_of_reply (x : reply) : list row :=
  match x with
  | Reply r => match read_page r with
               | Ok (Rows rows) => rows
               | _ => []
               end
  | ConnectionFailed => []
  end.

(** The rows of the pages of a trace, in the order received. *)
Definition rows_received (t : list exchange) : list row :=
  flat_map (fun x => rows_of_reply (snd x)) t.

(** A page that holds exactly as many items as were asked for. *)
Definition full_page (x : exchange) : Prop :=
  len (rows_of_reply (snd x)) = maxResults (fst x).

(** An exchange whose response has a status other than 200, the test of
    [if resp.status_code != 200]. *)
Definition bad_status (x : exchange) : Prop :=
  match snd x with
  | Reply r => status_code r <> 200
  | ConnectionFailed => False
  end.

(** A status of the success range. *)
Definition is_2xx (status : Z) : Prop := 200 <= status < 300.

(** The request the loop issues when it holds [results] and [start]. *)
Definition page_request (query : string) (api_key : option string)
  (max_results page_size : Z) (results : list row) (start : Z) : params :=
  {| q := query; startIndex := start;
     maxResults := Z.min page_size (max_results - len results);
     key := key_param api_key |}.

(** Running sums: the offsets of successive pages of the given sizes, the
    first page being at [start]. *)
Fixpoint offsets (start : Z) (sizes : list Z) : list Z :=
  match sizes with
  | [] => []
  | s :: sizes' => start :: offsets (start + s) sizes'
  end.

(** [sum(l)] *)
Definition sum (l : list Z) : Z := fold_right Z.add 0 l.

(** ** Endpoints used as examples *)

(** An endpoint holding [total] books: it answers with as many (empty)
    items as asked for, as long as it has them. *)
Definition library (total : Z) : server :=
  fun _ p =>
    let k := Z.to_nat (Z.min (maxResults p) (total - startIndex p)) in
    Reply {| status_code := 200; text := "";
             json_body := Some (JDict [("items", JList (repeat (JDict []) k))]) |}.

(** An endpoint that answers 204 No Content. *)
Definition no_content : server :=
  fun _ _ => Reply {| status_code := 204; text := ""; json_body := None |}.

(** An endpoint that answers 500 with a long body. *)
Definition failing : server :=
  fun _ _ => Reply {| status_code := 500;
                      text := String.concat "" (repeat "0123456789" 30);
                      json_body := None |}.

(** An endpoint that sends two items whatever was asked for. *)
Definition generous : server :=
  fun _ _ => Reply {| status_code := 200; text := "";
                      json_body := Some (JDict [("items", JList [JDict []; JDict []])]) |}.

(** ** Further vocabulary *)

(** A value [", ".join] accepts when it is a list: a list of strings, or
    anything that is not a list. *)
Definition joinable (v : json) : Prop :=
  forall l, v = JList l -> Forall (fun x => exists s, x = JStr s) l.

(** The effects that touch the file system. *)
Definition touches_disk (e : effect) : bool :=
  match e with
  | MakeDirs _ | WriteCsv _ _ => true
  | _ => false
  end.

(** A string that neither starts nor ends with a character [strip]
    removes. *)
Fixpoint ends_clean (s : string) : bool :=
  match s with
  | EmptyString => true
  | String c EmptyString => negb (is_space c)
  | String _ s' => ends_clean s'
  end.

Definition starts_clean (s : string) : bool :=
  match s with
  | EmptyString => true
  | String c _ => negb (is_space c)
  end.


(** An exchange that brought at least one row. *)
Definition productive (x : exchange) : Prop := rows_of_reply (snd x) <> [].

(** An exchange in which the endpoint sent no more items than asked for. *)
Definition honest_page (x : exchange) : Prop :=
  len (rows_of_reply (snd x)) <= maxResults (fst x).

(** The three parts of what [main] yields. *)
Definition main_trace (m : list exchange * list effect * ending) : list exchange :=
  fst (fst m).
Definition main_effects (m : list exchange * list effect * ending) : list effect :=
  snd (fst m).
Definition main_ending (m : list exchange * list effect * ending) : ending :=
  snd m.

(** An endpoint that answers the first request with two items and then
    cannot be reached. *)
Definition flaky : server :=
  fun n _ =>
    match n with
    | O => Reply {| status_code := 200; text := "";
                    json_body := Some (JDict [("items", JList [JDict []; JDict []])]) |}
    | S _ => ConnectionFailed
    end.

(** An endpoint that answers 200 with a body that is not JSON. *)
Definition not_json : server :=
  fun _ _ => Reply {| status_code := 200; text := "<html>"; json_body := None |}.

(** The call of [fetch_books] that [main] makes. *)
Definition main_run (http : server) (environ : string -> option string) (a : args)
  : list exchange * outcome :=
  fetch_books http (arg_q a) (api_key_of environ) (arg_max a) (arg_page_size a).

(** A string made of characters [strip] removes. *)
Fixpoint all_space (s : string) : bool :=
  match s with
  | EmptyString => true
  | String c s' => is_space c && all_space s'
  end.

(** A command line and an environment used as an example: two results
    wanted, written without the description to [data/books.csv]. *)
Definition sample_args : args :=
  {| arg_q := "rocq"; arg_max := 2; arg_page_size := 40;
     arg_out := "data/books.csv"; arg_no_desc := true |}.

Definition sample_environ : string -> option string :=
  fun name => if String.eqb name "GOOGLE_BOOKS_API_KEY" then Some "  k-123 " else None.

(** * Properties *)

(** ** The error monad and the primitives *)

Lemma bind_Ok_inv {A B : Type} (m : result A) (k : A -> result B) (b : B) :
  bind m k = Ok b -> exists a, m = Ok a /\ k a = Ok b.
Proof.
  destruct m as [a|e]; simpl; intros H; [eauto | discriminate].
Qed.

Lemma bind_Err_inv {A B : Type} (m : result A) (k : A -> result B) (e : exn) :
  bind m k = Err e -> m = Err e \/ exists a, m = Ok a /\ k a = Err e.
Proof.
  destruct m as [a|e']; simpl; intros H; [right; eauto | left; congruence].
Qed.

(** Peel the binds off a hypothesis [H : x <- m ;; k = Ok b]. *)
Ltac ok_inv H :=
  repeat match type of H with
         | bind _ _ = Ok _ =>
           let a := fresh "a" in
           let E := fresh "E" in
           apply bind_Ok_inv in H; destruct H as (a & E & H)
         end.

Lemma mapM_length {A B : Type} (f : A -> result B) (l : list A) (bs : list B) :
  mapM f l = Ok bs -> List.length bs = List.length l.
Proof.
  revert bs; induction l as [|a l IH]; simpl; intros bs H.
  - injection H as <-. reflexivity.
  - ok_inv H. injection H as <-. simpl. f_equal. now apply IH.
Qed.

Lemma mapM_app {A B : Type} (f : A -> result B) (l1 l2 : list A) (b1 b2 : list B) :
  mapM f l1 = Ok b1 -> mapM f l2 = Ok b2 -> mapM f (l1 ++ l2) = Ok (b1 ++ b2).
Proof.
  revert b1; induction l1 as [|a l1 IH]; simpl; intros b1 H1 H2.
  - injection H1 as <-. exact H2.
  - ok_inv H1. injection H1 as <-. rewrite E. simpl.
    rewrite (IH _ E0 H2). reflexivity.
Qed.

Lemma mapM_as_str_strings (ss : list string) :
  mapM as_str (map JStr ss) = Ok ss.
Proof.
  induction ss as [|s ss IH]; simpl; [reflexivity | now rewrite IH].
Qed.

Lemma py_get_Ok_inv (v : json) (k : string) (dflt w : json) :
  py_get_default v k dflt = Ok w -> exists d, v = JDict d /\ w = dict_get_default d k dflt.
Proof.
  destruct v; simpl; intros H; try discriminate.
  injection H as <-. eauto.
Qed.

Lemma py_prefix_length (n : nat) (s : string) :
  (String.length (py_prefix n s) <= n)%nat.
Proof.
  unfold py_prefix. revert s; induction n as [|n IH]; intros [|c s]; simpl; try lia.
  specialize (IH s). lia.
Qed.

Lemma py_prefix_is_prefix (n : nat) (s : string) :
  prefix (py_prefix n s) s = true.
Proof.
  unfold py_prefix. revert s; induction n as [|n IH]; intros [|c s]; simpl; try reflexivity.
  destruct (ascii_dec c c) as [_|ne]; [apply IH | now elim ne].
Qed.

(** ** [normalize_item] *)

Lemma normalize_item_Ok_intro (d vol sale acc : pydict) (a c : json) :
  sub_mapping d "volumeInfo" = JDict vol ->
  sub_mapping d "saleInfo" = JDict sale ->
  sub_mapping d "accessInfo" = JDict acc ->
  joined_field (dict_get vol "authors") = Ok a ->
  joined_field (dict_get vol "categories") = Ok c ->
  normalize_item (JDict d) = Ok (row_of d vol sale acc a c).
Proof.
  unfold sub_mapping, joined_field, normalize_item. intros Hv Hs Ha Hj Hc.
  cbn [py_get_default py_get bind]. rewrite Hv, Hs, Ha.
  cbn [py_get_default py_get bind]. fold (dict_get vol "authors").
  fold (dict_get vol "categories"). rewrite Hj, Hc. reflexivity.
Qed.

Lemma normalize_item_Ok_inv (item : json) (r : row) :
  normalize_item item = Ok r ->
  exists d vol sale acc a c,
    item = JDict d /\
    sub_mapping d "volumeInfo" = JDict vol /\
    sub_mapping d "saleInfo" = JDict sale /\
    sub_mapping d "accessInfo" = JDict acc /\
    joined_field (dict_get vol "authors") = Ok a /\
    joined_field (dict_get vol "categories") = Ok c /\
    r = row_of d vol sale acc a c.
Proof.
  unfold normalize_item. intros H. ok_inv H.
  injection H as <-.
  apply py_get_Ok_inv in E as (d & -> & ->).
  apply py_get_Ok_inv in E0 as (d0 & [= <-] & ->).
  apply py_get_Ok_inv in E1 as (d1 & [= <-] & ->).
  apply py_get_Ok_inv in E2 as (vol & Hvol & ->).
  unfold py_get in *.
  repeat match goal with
         | E : py_get_default _ _ _ = Ok _ |- _ =>
           apply py_get_Ok_inv in E; destruct E as (? & ? & ->)
         end.
  repeat match goal with
         | E : JDict _ = JDict _ |- _ => injection E as <-
         end.
  repeat match goal with
         | E1 : ?x = JDict ?a, E2 : ?x = JDict ?b |- _ =>
           assert (a = b) by congruence; subst b; clear E2
         end.
  eexists d, vol, _, _, _, _.
  repeat split; try eassumption; reflexivity.
Qed.

Lemma field_rule_sound (v w : json) : field_rule v w -> joined_field v = Ok w.
Proof.
  unfold joined_field, py_or. intros [v' Hf | ss Hss | v' Ht Hnl].
  - rewrite Hf. reflexivity.
  - destruct ss as [|s ss]; [now elim Hss|].
    cbn [truthy map]. change (JStr s :: map JStr ss) with (map JStr (s :: ss)).
    unfold join_if_list, comma_join. rewrite mapM_as_str_strings. reflexivity.
  - rewrite Ht. destruct v'; try reflexivity. now elim (Hnl l).
Qed.

(** The rule covers every value except a list holding something that is not
    a string, where [", ".join] raises [TypeError]. *)
Lemma joined_field_Ok_rule (v w : json) : joined_field v = Ok w -> field_rule v w.
Proof.
  unfold joined_field, py_or. destruct (truthy v) eqn:Ht.
  - destruct v; simpl; intros H;
      try (injection H as <-; apply rule_other; [exact Ht | intros ? [=]]).
    unfold comma_join in H. ok_inv H. injection H as <-.
    assert (Hl : l = map JStr a).
    { clear Ht. revert a E. induction l as [|x l IH]; simpl; intros a E.
      - injection E as <-. reflexivity.
      - ok_inv E. injection E as <-. destruct x; try discriminate.
        injection E0 as <-. simpl. f_equal. now apply IH. }
    subst l. apply rule_list. destruct a; [discriminate | intros [=]].
  - simpl. intros [= <-]. now apply rule_falsy.
Qed.

(** C2, as stated, fails: the header [to_dataframe] produces for a one-row
    result set is not the section 3 list, and its seventh label is
    ["categories"], not ["description"]. *)
Lemma csv_header_not_section3_order :
  ~ (csv_header false [empty_item_row] = section3_fields
     /\ nth_error (csv_header false [empty_item_row]) 6 = Some "description").
Proof.
  intros [_ H]. vm_compute in H. discriminate H.
Qed.

Lemma cols_permutation : Permutation cols section3_fields.
Proof.
  unfold cols, section3_fields.
  do 6 apply perm_skip.
  match goal with
  | |- Permutation (?c :: ?p :: ?rest) (?d :: ?p :: ?c :: ?tl) =>
    transitivity (d :: c :: p :: tl)
  end.
  - symmetry.
    match goal with
    | |- Permutation (?d :: ?l) _ => apply (Permutation_cons_append l d)
    end.
  - apply perm_skip. apply perm_swap.
Qed.

(** C2 (amended): a row built by [normalize_item] has its fields in the
    section 3 order, with ["description"] seventh; the data frame, and so the
    CSV header, has the columns of [cols] instead: the same seventeen names,
    with ["categories"] seventh, ["pageCount"] eighth and ["description"]
    last, and without ["description"] under [--no-desc]. *)
Theorem column_order (item : json) (r : row) (rows : list row) :
  normalize_item item = Ok r ->
  map fst r = section3_fields
  /\ nth_error (map fst r) 6 = Some "description"
  /\ csv_header false (r :: rows) = cols
  /\ csv_header true (r :: rows) = removelast cols
  /\ nth_error cols 6 = Some "categories"
  /\ nth_error cols 7 = Some "pageCount"
  /\ nth_error cols 16 = Some "description"
  /\ List.length cols = 17%nat
  /\ Permutation cols section3_fields.
Proof.
  intros H.
  apply normalize_item_Ok_inv in H as (d & vol & sale & acc & a & c & _ & _ & _ & _ & _ & _ & ->).
  repeat split; try reflexivity. apply cols_permutation.
Qed.

Lemma column_order_witness :
  normalize_item (JDict []) = Ok empty_item_row
  /\ map fst empty_item_row = section3_fields
  /\ csv_header false [empty_item_row] = cols.
Proof.
  split; [reflexivity|].
  destruct (column_order (JDict []) empty_item_row [] eq_refl) as (H1 & _ & H3 & _).
  split; [exact H1 | exact H3].
Defined.

(** C3, as stated, fails: in the row of the empty item, ["authors"] and
    ["categories"] hold the empty string, not [None]. *)
Lemma normalize_empty_not_all_absent :
  ~ (exists r, normalize_item (JDict []) = Ok r
               /\ Forall (fun kv => snd kv = JNull) r).
Proof.
  intros (r & H & Hall). vm_compute in H. injection H as <-.
  do 3 (apply Forall_inv_tail in Hall). apply Forall_inv in Hall.
  discriminate Hall.
Qed.

(** C3 (amended): [normalize_item] applied to the empty mapping raises
    nothing and returns the seventeen fields, all [None] except ["authors"]
    and ["categories"], which are the empty string. *)
Theorem normalize_empty_item :
  normalize_item (JDict []) =
  Ok (map (fun k => (k, if String.eqb k "authors" || String.eqb k "categories"
                        then JStr "" else JNull))
          section3_fields).
Proof.
  reflexivity.
Qed.

(** C4, as stated, fails: the number 0 under ["authors"] is a scalar, not a
    sequence, and yet is not passed through: the row holds the empty
    string. *)
Lemma normalize_scalar_not_passed_through :
  ~ (forall (vol : pydict) (v : json) (r : row),
        lookup "authors" vol = Some v ->
        (forall l, v <> JList l) ->
        normalize_item (JDict [("volumeInfo", JDict vol)]) = Ok r ->
        lookup "authors" r = Some v).
Proof.
  intros H.
  specialize (H [("authors", JInt 0)] (JInt 0) _ eq_refl
                (fun l E => ltac:(discriminate E)) eq_refl).
  vm_compute in H. discriminate H.
Qed.

(** C4 (amended): for an item that is a mapping whose [volumeInfo],
    [saleInfo] and [accessInfo] are each a mapping or a falsy value (absent,
    null, ...), [normalize_item] returns the row in which ["authors"] and
    ["categories"] follow [field_rule] (a falsy value, such as absent, null,
    0 or an empty list, gives the empty string; a non-empty list of strings
    is joined with [", "]; any other value is passed through unchanged) and
    every other field is the looked-up value, [None] when missing. *)
Theorem normalize_item_fields (d vol sale acc : pydict) (a c : json) :
  sub_mapping d "volumeInfo" = JDict vol ->
  sub_mapping d "saleInfo" = JDict sale ->
  sub_mapping d "accessInfo" = JDict acc ->
  field_rule (dict_get vol "authors") a ->
  field_rule (dict_get vol "categories") c ->
  normalize_item (JDict d) = Ok (row_of d vol sale acc a c).
Proof.
  intros Hv Hs Ha Hfa Hfc.
  apply normalize_item_Ok_intro; auto using field_rule_sound.
Qed.

Lemma normalize_item_fields_witness :
  normalize_item
    (JDict [ ("id", JStr "b1");
             ("volumeInfo", JDict [ ("title", JStr "T");
                                    ("authors", JList [JStr "A"; JStr "B"]);
                                    ("categories", JStr "Fiction");
                                    ("pageCount", JInt 320) ]);
             ("saleInfo", JNull) ])
  = Ok [ ("id", JStr "b1"); ("title", JStr "T"); ("subtitle", JNull);
         ("authors", JStr "A, B"); ("publisher", JNull);
         ("publishedDate", JNull); ("description", JNull);
         ("pageCount", JInt 320); ("categories", JStr "Fiction");
         ("averageRating", JNull); ("ratingsCount", JNull);
         ("language", JNull); ("infoLink", JNull); ("previewLink", JNull);
         ("canonicalVolumeLink", JNull); ("isEbook", JNull);
         ("webReaderLink", JNull) ].
Proof.
  exact (normalize_item_fields
           [ ("id", JStr "b1");
             ("volumeInfo", JDict [ ("title", JStr "T");
                                    ("authors", JList [JStr "A"; JStr "B"]);
                                    ("categories", JStr "Fiction");
                                    ("pageCount", JInt 320) ]);
             ("saleInfo", JNull) ]
           [ ("title", JStr "T"); ("authors", JList [JStr "A"; JStr "B"]);
             ("categories", JStr "Fiction"); ("pageCount", JInt 320) ]
           [] [] (JStr "A, B") (JStr "Fiction")
           eq_refl eq_refl eq_refl
           (rule_list ["A"; "B"] (fun E => ltac:(discriminate E)))
           (rule_other (JStr "Fiction") eq_refl (fun l E => ltac:(discriminate E)))).
Defined.

(** ** One page *)

Lemma raises_only_bind {A B : Type} (P : exn -> Prop) (m : result A) (k : A -> result B) :
  raises_only P m -> (forall a, raises_only P (k a)) -> raises_only P (bind m k).
Proof.
  destruct m as [a|e]; simpl; auto.
Qed.

Lemma raises_only_mapM {A B : Type} (P : exn -> Prop) (f : A -> result B) (l : list A) :
  (forall a, raises_only P (f a)) -> raises_only P (mapM f l).
Proof.
  intros Hf. induction l as [|a l IH]; simpl; [exact I|].
  apply raises_only_bind; [apply Hf | intros b].
  apply raises_only_bind; [exact IH | intros bs; exact I].
Qed.

Lemma py_get_raises (v : json) (k : string) (dflt : json) :
  raises_only builtin_error (py_get_default v k dflt).
Proof.
  destruct v; simpl; unfold builtin_error; auto.
Qed.

Lemma join_if_list_raises (v : json) : raises_only builtin_error (join_if_list v).
Proof.
  destruct v; simpl; auto. unfold comma_join.
  apply raises_only_bind; [|intros; exact I].
  apply raises_only_mapM. intros []; simpl; unfold builtin_error; auto.
Qed.

(** [normalize_item] is not total: it raises on an item, or a truthy
    sub-mapping, without [.get], and on a list with a non-string element;
    but it raises nothing else. *)
Lemma normalize_item_raises (item : json) :
  raises_only builtin_error (normalize_item item).
Proof.
  unfold normalize_item, py_get.
  repeat (apply raises_only_bind;
          [first [apply py_get_raises | apply join_if_list_raises] | intros ?]).
  exact I.
Qed.

Lemma mapM_nonempty {A B : Type} (f : A -> result B) (l : list A) (bs : list B) :
  mapM f l = Ok bs -> l <> [] -> bs <> [].
Proof.
  intros H Hl. apply mapM_length in H. destruct l; [now elim Hl|].
  destruct bs; [discriminate H | discriminate].
Qed.

Lemma py_iter_nonempty (v : json) (its : list json) :
  truthy v = true -> py_iter v = Ok its -> its <> [].
Proof.
  destruct v; simpl; intros Ht H; try discriminate; injection H as <-.
  - destruct s; [discriminate Ht | discriminate].
  - destruct l; [discriminate Ht | discriminate].
  - destruct d; [discriminate Ht | discriminate].
Qed.

(** A pass through the loop body that does not leave the loop appends at
    least one row. *)
Lemma read_page_Rows_nonempty (r : response) (rows : list row) :
  read_page r = Ok (Rows rows) -> rows <> [].
Proof.
  unfold read_page. destruct (negb (status_code r =? 200)); [discriminate|].
  intros H. ok_inv H.
  destruct (truthy (py_or a0 (JList []))) eqn:Ht; simpl in H; [|discriminate].
  ok_inv H. injection H as <-.
  eapply mapM_nonempty; [eassumption|].
  eapply py_iter_nonempty; eassumption.
Qed.

Lemma read_page_Ok_status (r : response) (pg : page) :
  read_page r = Ok pg -> status_code r = 200.
Proof.
  unfold read_page. destruct (status_code r =? 200) eqn:E; simpl.
  - intros _. now apply Z.eqb_eq.
  - discriminate.
Qed.

(** [read_page] raises [RuntimeError] exactly on a status other than 200,
    with the message built from the status and the first 200 characters of
    the body. *)
Lemma read_page_RuntimeError (r : response) (msg : string) :
  read_page r = Err (RuntimeError msg) <->
  status_code r <> 200 /\ msg = http_error_message r.
Proof.
  unfold read_page. destruct (status_code r =? 200) eqn:E; simpl.
  - apply Z.eqb_eq in E. split; [|intros [H _]; now elim H].
    intros H. exfalso.
    match type of H with
    | ?m = _ =>
      assert (R : raises_only (fun e => e = JSONDecodeError \/ builtin_error e) m)
    end.
    { apply raises_only_bind; [destruct (json_body r); simpl; auto | intros data].
      apply raises_only_bind.
      { generalize (py_get_raises data "items" JNull). unfold py_get.
        destruct (py_get_default data "items" JNull); simpl; auto. }
      intros items0. cbv zeta.
      destruct (negb (truthy (py_or items0 (JList [])))); [exact I|].
      apply raises_only_bind.
      { destruct (py_or items0 (JList [])); simpl; unfold builtin_error; auto. }
      intros its. apply raises_only_bind; [|intros; exact I].
      apply raises_only_mapM. intros a.
      generalize (normalize_item_raises a).
      destruct (normalize_item a); simpl; auto. }
    rewrite H in R. simpl in R. unfold builtin_error in R.
    destruct R as [R | [R | R]]; discriminate R.
  - apply Z.eqb_neq in E. split.
    + intros [= <-]. auto.
    + intros [_ ->]. reflexivity.
Qed.

Lemma empty_page_Break (r : response) : empty_page r -> read_page r = Ok Break.
Proof.
  intros (Hs & d & Hj & Hi). unfold read_page. rewrite Hs, Hj. simpl.
  unfold dict_get_default. destruct Hi as [-> | [-> | ->]]; reflexivity.
Qed.

(** ** The loop *)

Lemma offsets_app (start : Z) (l1 l2 : list Z) :
  offsets start (l1 ++ l2) = offsets start l1 ++ offsets (start + sum l1) l2.
Proof.
  revert start; induction l1 as [|s l1 IH]; simpl; intros start.
  - now rewrite Z.add_0_r.
  - rewrite IH. now rewrite Z.add_assoc.
Qed.

Lemma offsets_length (start : Z) (sizes : list Z) :
  List.length (offsets start sizes) = List.length sizes.
Proof.
  revert start; induction sizes as [|s sizes IH]; simpl; intros start;
    [reflexivity | now rewrite IH].
Qed.

Lemma offsets_lower_bound (start : Z) (sizes : list Z) :
  Forall (fun s => 1 <= s) sizes -> Forall (fun o => start <= o) (offsets start sizes).
Proof.
  intros H. revert start; induction H as [|s sizes Hs _ IH]; simpl; intros start.
  - constructor.
  - constructor; [lia|]. eapply Forall_impl; [|apply IH]. simpl. intros; lia.
Qed.

Lemma offsets_increasing (start : Z) (sizes : list Z) :
  Forall (fun s => 1 <= s) sizes -> StronglySorted Z.lt (offsets start sizes).
Proof.
  intros H. revert start; induction H as [|s sizes Hs Hrest IH]; simpl; intros start.
  - constructor.
  - constructor; [apply IH|].
    eapply Forall_impl; [|apply (offsets_lower_bound (start + s)); exact Hrest].
    simpl. intros; lia.
Qed.

Section FetchFacts.

Variable http : server.
Variable query : string.
Variable api_key : option string.
Variable max_results : Z.
Variable page_size : Z.

Let loop := fetch_loop http query api_key max_results page_size.
Let request := page_request query api_key max_results page_size.

(** Name the request record that unfolding the loop displays. *)
Ltac fold_request results start :=
  change (Build_params query start (Z.min page_size (max_results - len results))
                       (key_param api_key))
    with (request results start).

(** Induction along the iterations of the loop: one case per way an
    iteration can go. *)
Lemma fetch_loop_ind
  (P : nat -> nat -> list row -> Z -> list exchange * outcome -> Prop)
  (Hdone : forall fuel n results start,
      max_results <= len results ->
      P fuel n results start ([], Returned results))
  (Hfuel : forall n results start,
      len results < max_results ->
      P O n results start ([], OutOfFuel))
  (Hconn : forall fuel n results start,
      len results < max_results ->
      http n (request results start) = ConnectionFailed ->
      P (S fuel) n results start
        ([(request results start, ConnectionFailed)], Raised RequestException))
  (Herr : forall fuel n results start r e,
      len results < max_results ->
      http n (request results start) = Reply r ->
      read_page r = Err e ->
      P (S fuel) n results start ([(request results start, Reply r)], Raised e))
  (Hbreak : forall fuel n results start r,
      len results < max_results ->
      http n (request results start) = Reply r ->
      read_page r = Ok Break ->
      P (S fuel) n results start
        ([(request results start, Reply r)], Returned results))
  (Hnext : forall fuel n results start r rows t o,
      len results < max_results ->
      http n (request results start) = Reply r ->
      read_page r = Ok (Rows rows) ->
      rows <> [] ->
      loop fuel (S n) (results ++ rows)
           (start + maxResults (request results start)) = (t, o) ->
      P fuel (S n) (results ++ rows)
        (start + maxResults (request results start)) (t, o) ->
      P (S fuel) n results start
        ((request results start, Reply r) :: t, o)) :
  forall fuel n results start, P fuel n results start (loop fuel n results start).
Proof.
  induction fuel as [|fuel IH]; intros n results start; unfold loop; simpl;
    destruct (Z.ltb_spec (len results) max_results) as [Hlt|Hge];
    try (now apply Hdone); [now apply Hfuel|].
  fold_request results start.
  destruct (http n (request results start)) as [r|] eqn:Hr; [|now apply Hconn].
  destruct (read_page r) as [[|rows]|e] eqn:Hp;
    [now apply Hbreak | | now apply Herr].
  specialize (IH (S n) (results ++ rows)
                 (start + maxResults (request results start))).
  unfold loop in IH. simpl in IH.
  destruct (fetch_loop http query api_key max_results page_size fuel (S n)
              (results ++ rows)
              (start + Z.min page_size (max_results - len results)))
    as [t o] eqn:Hrec.
  eapply Hnext; eauto using read_page_Rows_nonempty.
Qed.

Lemma len_app_rows (results rows : list row) :
  len (results ++ rows) = len results + len rows.
Proof.
  unfold len. rewrite length_app. lia.
Qed.

Lemma len_nonempty (rows : list row) : rows <> [] -> 1 <= len rows.
Proof.
  unfold len. destruct rows; [now intros H; elim H | simpl; lia].
Qed.

(** Termination: with at least as much fuel as rows are still wanted, the
    loop does not run out of it. *)
Lemma fetch_loop_fuel_enough (fuel n : nat) (results : list row) (start : Z) :
  max_results - len results <= Z.of_nat fuel ->
  snd (loop fuel n results start) <> OutOfFuel.
Proof.
  pattern fuel, n, results, start, (loop fuel n results start).
  revert fuel n results start. apply fetch_loop_ind; simpl; intros; try discriminate.
  - lia.
  - apply H4. rewrite len_app_rows. apply len_nonempty in H2. lia.
Qed.

(** ... and then the amount of fuel does not matter. *)
Lemma fetch_loop_fuel_irrelevant (fuel n : nat) (results : list row) (start : Z) :
  forall fuel',
    max_results - len results <= Z.of_nat fuel ->
    max_results - len results <= Z.of_nat fuel' ->
    loop fuel' n results start = loop fuel n results start.
Proof.
  pattern fuel, n, results, start, (loop fuel n results start).
  revert fuel n results start. apply fetch_loop_ind; intros.
  - unfold loop. destruct fuel'; simpl;
      destruct (Z.ltb_spec (len results) max_results); try lia; reflexivity.
  - lia.
  - destruct fuel' as [|fuel']; [lia|]. unfold loop; simpl.
    destruct (Z.ltb_spec (len results) max_results); [|lia].
    fold_request results start. now rewrite H0.
  - destruct fuel' as [|fuel']; [lia|]. unfold loop; simpl.
    destruct (Z.ltb_spec (len results) max_results); [|lia].
    fold_request results start. now rewrite H0, H1.
  - destruct fuel' as [|fuel']; [lia|]. unfold loop; simpl.
    destruct (Z.ltb_spec (len results) max_results); [|lia].
    fold_request results start. now rewrite H0, H1.
  - destruct fuel' as [|fuel']; [lia|]. unfold loop; simpl.
    destruct (Z.ltb_spec (len results) max_results); [|lia].
    fold_request results start. rewrite H0, H1.
    assert (Hl := len_nonempty rows H2). pose proof (len_app_rows results rows).
    assert (E : loop fuel' (S n) (results ++ rows)
                  (start + maxResults (request results start)) = (t, o))
      by (apply H4; lia).
    unfold loop in E. simpl in E. rewrite E. reflexivity.
Qed.

(** The loop issues at most as many requests as rows are still wanted. *)
Lemma fetch_loop_trace_length (fuel n : nat) (results : list row) (start : Z) :
  len (fst (loop fuel n results start)) <= Z.max 0 (max_results - len results).
Proof.
  pattern fuel, n, results, start, (loop fuel n results start).
  revert fuel n results start. apply fetch_loop_ind; simpl; intros;
    unfold len in *; simpl List.length; try lia.
  fold (len results) in *. fold (len (results ++ rows)) in *.
  rewrite len_app_rows in H4. apply len_nonempty in H2. lia.
Qed.

(** Every request carries the query, the key parameter, and a page size
    between 1 and the clamped page size. *)
Lemma fetch_loop_requests (fuel n : nat) (results : list row) (start : Z) :
  1 <= page_size ->
  Forall (fun x => q (fst x) = query /\ key (fst x) = key_param api_key /\
                   1 <= maxResults (fst x) <= page_size)
         (fst (loop fuel n results start)).
Proof.
  intros Hps. pattern fuel, n, results, start, (loop fuel n results start).
  revert fuel n results start. apply fetch_loop_ind; simpl; intros; repeat constructor; simpl; auto; lia.
Qed.

(** The [startIndex] values are the running sums of the requested page
    sizes. *)
Lemma fetch_loop_offsets (fuel n : nat) (results : list row) (start : Z) :
  map startIndex (map fst (fst (loop fuel n results start))) =
  offsets start (map maxResults (map fst (fst (loop fuel n results start)))).
Proof.
  pattern fuel, n, results, start, (loop fuel n results start).
  revert fuel n results start. apply fetch_loop_ind; simpl; intros;
    try reflexivity.
  now rewrite H4.
Qed.

(** What is returned is what the loop held plus the rows of the pages
    received, in that order. *)
Lemma fetch_loop_returned (fuel n : nat) (results : list row) (start : Z) :
  forall rows,
    snd (loop fuel n results start) = Returned rows ->
    rows = results ++ rows_received (fst (loop fuel n results start)).
Proof.
  unfold rows_received. pattern fuel, n, results, start, (loop fuel n results start).
  revert fuel n results start. apply fetch_loop_ind; simpl; intros; try discriminate.
  - injection H0 as <-. now rewrite app_nil_r.
  - injection H2 as <-. rewrite H1. now rewrite app_nil_r.
  - rewrite H1. rewrite (H4 _ H5). now rewrite app_assoc.
Qed.

(** An empty page ends the run: it is the last exchange, and the rows of
    the pages before it are returned. *)
Lemma fetch_loop_break (fuel n : nat) (results : list row) (start : Z) :
  forall pre p r post,
    fst (loop fuel n results start) = pre ++ (p, Reply r) :: post ->
    read_page r = Ok Break ->
    post = [] /\
    snd (loop fuel n results start) = Returned (results ++ rows_received pre).
Proof.
  unfold rows_received. pattern fuel, n, results, start, (loop fuel n results start).
  revert fuel n results start. apply fetch_loop_ind; simpl; intros;
    try (destruct pre as [|? [|? ?]]; discriminate).
  - destruct pre as [|? [|? ?]]; try discriminate.
    injection H2 as _ <- _. congruence.
  - destruct pre as [|? [|? ?]]; try discriminate.
    injection H2 as _ _ <-. simpl. now rewrite app_nil_r.
  - destruct pre as [|y pre].
    + injection H5 as _ <- _. congruence.
    + injection H5 as <- ->. simpl. rewrite H1.
      destruct (H4 _ _ _ _ eq_refl H6) as [-> ->].
      split; [reflexivity|]. now rewrite app_assoc.
Qed.

(** [RuntimeError] is raised exactly when a reply with a status other
    than 200 was received; that reply is then the last one, and the message
    is built from it. *)
Lemma fetch_loop_RuntimeError (fuel n : nat) (results : list row) (start : Z) :
  ((exists msg, snd (loop fuel n results start) = Raised (RuntimeError msg))
   <-> Exists bad_status (fst (loop fuel n results start)))
  /\ (forall msg,
         snd (loop fuel n results start) = Raised (RuntimeError msg) ->
         exists pre p r,
           fst (loop fuel n results start) = pre ++ [(p, Reply r)] /\
           Forall (fun x => ~ bad_status x) pre /\
           status_code r <> 200 /\ msg = http_error_message r).
Proof.
  pattern fuel, n, results, start, (loop fuel n results start).
  revert fuel n results start. apply fetch_loop_ind; simpl; intros.
  - split; [split|]; [intros [? [=]] | intros H0; inversion H0 | intros ? [=]].
  - split; [split|]; [intros [? [=]] | intros H0; inversion H0 | intros ? [=]].
  - split; [split|]; [intros [? [=]] | | intros ? [=]].
    intros H1. inversion H1 as [? ? Hb|? ? Hb]; [exact (False_ind _ Hb) | inversion Hb].
  - split; [split|].
    + intros [msg [= ->]]. apply read_page_RuntimeError in H1 as [Hs _].
      constructor. exact Hs.
    + intros Hex. inversion Hex as [? ? Hb|? ? Hb]; [|inversion Hb].
      unfold bad_status in Hb; simpl in Hb.
      exists (http_error_message r). do 2 f_equal.
      destruct e; try (apply read_page_RuntimeError in H1 as [_ ->]; reflexivity);
        unfold read_page in H1;
        (destruct (status_code r =? 200) eqn:E;
         [apply Z.eqb_eq in E; contradiction | discriminate H1]).
    + intros msg [= ->]. apply read_page_RuntimeError in H1 as [Hs ->].
      exists [], (request results start), r. repeat split; auto.
  - split; [split|]; [intros [? [=]] | | intros ? [=]].
    intros Hex. inversion Hex as [? ? Hb|? ? Hb]; [|inversion Hb].
    unfold bad_status in Hb; simpl in Hb.
    apply read_page_Ok_status in H1. contradiction.
  - destruct H4 as [Hiff Hlast].
    assert (Hok : ~ bad_status (request results start, Reply r)).
    { unfold bad_status; simpl. apply read_page_Ok_status in H1. lia. }
    split; [split|].
    + intros Hm. apply Exists_cons_tl. now apply Hiff.
    + intros Hex. apply Hiff. inversion Hex; [contradiction | assumption].
    + intros msg Hm. destruct (Hlast msg Hm) as (pre & p & r' & -> & Hpre & Hs & ->).
      exists ((request results start, Reply r) :: pre), p, r'.
      repeat split; auto.
Qed.

(** When every page holds no more items than were asked for, the result
    has at most [max_results] rows. *)
Lemma fetch_loop_length_bound (fuel n : nat) (results : list row) (start : Z) :
  Forall (fun x => len (rows_of_reply (snd x)) <= maxResults (fst x))
         (fst (loop fuel n results start)) ->
  len results <= Z.max 0 max_results ->
  forall rows,
    snd (loop fuel n results start) = Returned rows ->
    len rows <= Z.max 0 max_results.
Proof.
  pattern fuel, n, results, start, (loop fuel n results start).
  revert fuel n results start.
  apply fetch_loop_ind; simpl; intros; try discriminate.
  - injection H2 as <-. assumption.
  - injection H4 as <-. assumption.
  - inversion H5 as [|? ? Hhd Htl]; subst. simpl in Hhd. rewrite H1 in Hhd.
    apply H4; auto. rewrite len_app_rows. lia.
Qed.

End FetchFacts.

(** The loop looks at the API key only through [key_param]. *)
Lemma fetch_loop_key_param (http : server) (query : string) (k1 k2 : option string)
  (max_results page_size : Z) (fuel n : nat) (results : list row) (start : Z) :
  key_param k1 = key_param k2 ->
  fetch_loop http query k1 max_results page_size fuel n results start =
  fetch_loop http query k2 max_results page_size fuel n results start.
Proof.
  intros Hk. revert n results start.
  induction fuel as [|fuel IH]; intros n results start; simpl; [reflexivity|].
  rewrite Hk.
  destruct (len results <? max_results); [|reflexivity].
  destruct (http n _) as [r|]; [|reflexivity].
  destruct (read_page r) as [[|rows]|e]; try reflexivity.
  now rewrite IH.
Qed.

Lemma clamp_page_size_range (page_size : Z) : 1 <= clamp_page_size page_size <= 40.
Proof.
  unfold clamp_page_size. lia.
Qed.

(** ** [fetch_books] *)

(** What every request of a run carries. *)
Lemma fetch_books_requests (http : server) (query : string)
  (api_key : option string) (max_results page_size : Z) :
  Forall (fun p => q p = query /\ key p = key_param api_key /\
                   1 <= maxResults p <= 40)
         (requests (fetch_books http query api_key max_results page_size)).
Proof.
  unfold requests, fetch_books. apply Forall_map.
  pose proof (clamp_page_size_range page_size) as Hc.
  eapply Forall_impl;
    [|apply fetch_loop_requests with (page_size := clamp_page_size page_size); lia].
  simpl. intros x (Hq & Hk & Hm). repeat split; auto; lia.
Qed.

(** *** Errors *)

(** C1, as stated, fails: a request answered 204, a status in the 2xx
    range, makes [fetch_books] raise. *)
Lemma fetch_books_raises_on_204 :
  ~ (forall msg,
        final (fetch_books no_content "rocq" None 1 40) = Raised (RuntimeError msg) ->
        Exists (fun x => match x with
                         | Reply r => ~ is_2xx (status_code r)
                         | ConnectionFailed => False
                         end)
               (replies (fetch_books no_content "rocq" None 1 40))).
Proof.
  intros H. specialize (H "HTTP 204: " eq_refl).
  change (replies (fetch_books no_content "rocq" None 1 40))
    with [Reply {| status_code := 204; text := ""; json_body := None |}] in H.
  inversion H as [? ? Hb|? ? Hb]; subst.
  - apply Hb. unfold is_2xx. simpl. lia.
  - inversion Hb.
Qed.

(** C1 (amended): [fetch_books] raises its [RuntimeError] when, and only
    when, some response of the run has a status other than 200 (so also on
    the other statuses of the 2xx range); that response is the last of the
    run, and the error message carries its status code and the first 200
    characters, at most, of its body. *)
Theorem fetch_books_raises_iff_not_200 (http : server) (query : string)
  (api_key : option string) (max_results page_size : Z) :
  ((exists msg, final (fetch_books http query api_key max_results page_size)
                = Raised (RuntimeError msg))
   <-> Exists bad_status (fst (fetch_books http query api_key max_results page_size)))
  /\ (forall msg,
         final (fetch_books http query api_key max_results page_size)
         = Raised (RuntimeError msg) ->
         exists pre p r,
           fst (fetch_books http query api_key max_results page_size)
           = pre ++ [(p, Reply r)]
           /\ Forall (fun x => ~ bad_status x) pre
           /\ status_code r <> 200
           /\ msg = ("HTTP " ++ py_str_int (status_code r) ++ ": "
                             ++ py_prefix 200 (text r))%string
           /\ (String.length (py_prefix 200 (text r)) <= 200)%nat
           /\ prefix (py_prefix 200 (text r)) (text r) = true).
Proof.
  unfold fetch_books, final.
  destruct (fetch_loop_RuntimeError http query api_key max_results
              (clamp_page_size page_size) (Z.to_nat max_results) 0 [] 0)
    as [Hiff Hlast].
  split; [exact Hiff|].
  intros msg Hm. destruct (Hlast msg Hm) as (pre & p & r & Ht & Hpre & Hs & ->).
  exists pre, p, r. repeat split; auto.
  - apply py_prefix_length.
  - apply py_prefix_is_prefix.
Qed.

Lemma fetch_books_raises_iff_not_200_witness :
  Exists bad_status (fst (fetch_books failing "rocq" None 5 10))
  /\ exists r, status_code r = 500
               /\ String.length (text r) = 300%nat
               /\ final (fetch_books failing "rocq" None 5 10)
                  = Raised (RuntimeError ("HTTP 500: " ++ py_prefix 200 (text r))%string).
Proof.
  split.
  - apply (proj1 (proj1 (fetch_books_raises_iff_not_200 failing "rocq" None 5 10))).
    eexists. reflexivity.
  - eexists {| status_code := 500; text := _; json_body := None |}.
    repeat split; reflexivity.
Defined.

(** *** Page sizes and offsets *)

(** C6: whatever page size the caller passes, the page size in effect is
    that value clamped to 1..40, and every request issued carries a
    [maxResults] between 1 and 40. *)
Theorem page_size_clamped (http : server) (query : string)
  (api_key : option string) (max_results page_size : Z) :
  clamp_page_size page_size
  = (if page_size <? 1 then 1 else if 40 <? page_size then 40 else page_size)
  /\ 1 <= clamp_page_size page_size <= 40
  /\ Forall (fun p => 1 <= maxResults p <= 40)
            (requests (fetch_books http query api_key max_results page_size)).
Proof.
  split; [|split].
  - unfold clamp_page_size.
    destruct (Z.ltb_spec page_size 1), (Z.ltb_spec 40 page_size); lia.
  - apply clamp_page_size_range.
  - eapply Forall_impl; [|apply fetch_books_requests].
    simpl. intros p (_ & _ & H). exact H.
Qed.

Lemma sum_full_pages (pre : list exchange) :
  Forall full_page pre ->
  sum (map maxResults (map fst pre)) = len (rows_received pre).
Proof.
  unfold rows_received.
  induction 1 as [|x pre Hx _ IH]; simpl; [reflexivity|].
  unfold len in *. rewrite length_app, Nat2Z.inj_add, <- IH.
  unfold full_page, len in Hx. lia.
Qed.

(** C7: the [startIndex] values of the successive requests start at 0, are
    the running sums of the page sizes requested before, and are strictly
    increasing; as long as the pages received were full, the [startIndex] of
    the next request is therefore the number of rows received so far. *)
Theorem start_index_running_sum (http : server) (query : string)
  (api_key : option string) (max_results page_size : Z) :
  map startIndex (requests (fetch_books http query api_key max_results page_size))
  = offsets 0 (map maxResults
                   (requests (fetch_books http query api_key max_results page_size)))
  /\ StronglySorted Z.lt
       (map startIndex (requests (fetch_books http query api_key max_results page_size)))
  /\ (forall pre x post,
         fst (fetch_books http query api_key max_results page_size) = pre ++ x :: post ->
         startIndex (fst x) = sum (map maxResults (map fst pre))
         /\ (Forall full_page pre -> startIndex (fst x) = len (rows_received pre))).
Proof.
  assert (Hoff : map startIndex
                   (requests (fetch_books http query api_key max_results page_size))
                 = offsets 0 (map maxResults
                     (requests (fetch_books http query api_key max_results page_size)))).
  { unfold requests, fetch_books. apply fetch_loop_offsets. }
  split; [exact Hoff | split].
  - rewrite Hoff. apply offsets_increasing.
    apply Forall_map.
    eapply Forall_impl;
      [|apply (fetch_books_requests http query api_key max_results page_size)].
    simpl. intros p (_ & _ & H). lia.
  - intros pre x post Ht.
    assert (Hx : startIndex (fst x) = sum (map maxResults (map fst pre))).
    { unfold requests in Hoff. rewrite Ht in Hoff.
      rewrite !map_app, offsets_app in Hoff. simpl in Hoff.
      apply (f_equal (fun l => nth (List.length (map startIndex (map fst pre))) l 0))
        in Hoff.
      rewrite nth_middle in Hoff. rewrite Hoff.
      replace (List.length (map startIndex (map fst pre)))
        with (List.length (offsets 0 (map maxResults (map fst pre)))).
      - now rewrite nth_middle.
      - now rewrite offsets_length, !length_map. }
    split; [exact Hx|]. intros Hfull. rewrite Hx. now apply sum_full_pages.
Qed.

Lemma start_index_running_sum_witness :
  map startIndex (requests (fetch_books (library 5) "rocq" None 10 2)) = [0; 2; 4; 6]
  /\ map maxResults (requests (fetch_books (library 5) "rocq" None 10 2)) = [2; 2; 2; 2]
  /\ map (fun x => len (rows_of_reply (snd x)))
         (fst (fetch_books (library 5) "rocq" None 10 2)) = [2; 2; 1; 0].
Proof.
  split; [|split; reflexivity].
  rewrite (proj1 (start_index_running_sum (library 5) "rocq" None 10 2)).
  reflexivity.
Defined.

(** *** The result set *)

(** X8: The rows returned are those of the pages received, page by page, in
    the order received. *)
Lemma fetch_books_fetch_order (http : server) (query : string)
  (api_key : option string) (max_results page_size : Z) (rows : list row) :
  final (fetch_books http query api_key max_results page_size) = Returned rows ->
  rows = rows_received (fst (fetch_books http query api_key max_results page_size)).
Proof.
  unfold final, fetch_books. intros H.
  now apply fetch_loop_returned in H.
Qed.

(** X7: Nothing is returned when nothing is asked for. *)
Lemma fetch_books_nothing_wanted (http : server) (query : string)
  (api_key : option string) (max_results page_size : Z) :
  max_results <= 0 ->
  fetch_books http query api_key max_results page_size = ([], Returned []).
Proof.
  intros H. unfold fetch_books.
  destruct (Z.to_nat max_results); simpl;
    destruct (Z.ltb_spec (len (@nil row)) max_results); try reflexivity;
    unfold len in *; simpl in *; lia.
Qed.

(** X9: When no page holds more items than were asked for, the result has at
    most [max_results] rows. *)
Lemma fetch_books_length_bound (http : server) (query : string)
  (api_key : option string) (max_results page_size : Z) (rows : list row) :
  Forall (fun x => len (rows_of_reply (snd x)) <= maxResults (fst x))
         (fst (fetch_books http query api_key max_results page_size)) ->
  final (fetch_books http query api_key max_results page_size) = Returned rows ->
  len rows <= Z.max 0 max_results.
Proof.
  unfold final, fetch_books. intros Hall H.
  eapply fetch_loop_length_bound; [exact Hall | | exact H].
  unfold len; simpl; lia.
Qed.

(** C5: [fetch_books] appends every item of a page, also when the page
    holds more items than the request asked for: asked for one result, with
    the endpoint sending two items, it returns two rows. *)
Theorem fetch_books_exceeds_max_results :
  requests (fetch_books generous "rocq" None 1 40)
  = [ {| q := "rocq"; startIndex := 0; maxResults := 1; key := None |} ]
  /\ final (fetch_books generous "rocq" None 1 40)
     = Returned [empty_item_row; empty_item_row]
  /\ 1 < len [empty_item_row; empty_item_row].
Proof.
  repeat split.
Qed.

(** C8: a page whose items list is empty, missing or null is the last
    exchange of the run, and [fetch_books] then returns, without raising,
    exactly the rows of the pages before it. *)
Theorem empty_page_ends_fetch (http : server) (query : string)
  (api_key : option string) (max_results page_size : Z)
  (pre : list exchange) (p : params) (r : response) (post : list exchange) :
  fst (fetch_books http query api_key max_results page_size)
  = pre ++ (p, Reply r) :: post ->
  empty_page r ->
  post = []
  /\ final (fetch_books http query api_key max_results page_size)
     = Returned (rows_received pre).
Proof.
  unfold final, fetch_books. intros Ht He.
  apply empty_page_Break in He.
  exact (fetch_loop_break _ _ _ _ _ _ _ _ _ _ _ _ _ Ht He).
Qed.

Lemma empty_page_ends_fetch_witness :
  List.length (fst (fetch_books (library 2) "rocq" None 10 2)) = 2%nat
  /\ final (fetch_books (library 2) "rocq" None 10 2)
     = Returned [empty_item_row; empty_item_row].
Proof.
  split; [reflexivity|].
  refine (proj2 (empty_page_ends_fetch (library 2) "rocq" None 10 2
                   [ ({| q := "rocq"; startIndex := 0; maxResults := 2; key := None |},
                      Reply {| status_code := 200; text := "";
                               json_body := Some (JDict [("items",
                                              JList [JDict []; JDict []])]) |}) ]
                   {| q := "rocq"; startIndex := 2; maxResults := 2; key := None |}
                   {| status_code := 200; text := "";
                      json_body := Some (JDict [("items", JList [])]) |}
                   [] eq_refl _)).
  split; [reflexivity|].
  exists [("items", JList [])]. split; [reflexivity|]. right; right; reflexivity.
Defined.

(** *** Termination *)

(** C9: [fetch_books] terminates on every input and every endpoint: the
    [max_results] iterations the loop is given are never used up, more fuel
    changes nothing, at most [max_results] requests are issued, and a pass
    through the loop body that does not leave the loop appends at least one
    row. *)
Theorem fetch_books_terminates (http : server) (query : string)
  (api_key : option string) (max_results page_size : Z) :
  final (fetch_books http query api_key max_results page_size) <> OutOfFuel
  /\ (forall fuel,
         (Z.to_nat max_results <= fuel)%nat ->
         fetch_loop http query api_key max_results (clamp_page_size page_size)
                    fuel 0 [] 0
         = fetch_books http query api_key max_results page_size)
  /\ len (fst (fetch_books http query api_key max_results page_size))
     <= Z.max 0 max_results
  /\ (forall r rows, read_page r = Ok (Rows rows) -> 1 <= len rows).
Proof.
  unfold final, fetch_books. repeat split.
  - apply fetch_loop_fuel_enough. unfold len; simpl; lia.
  - intros fuel Hf. apply fetch_loop_fuel_irrelevant; unfold len; simpl; lia.
  - pose proof (fetch_loop_trace_length http query api_key max_results
                  (clamp_page_size page_size) (Z.to_nat max_results) 0 [] 0) as H.
    unfold len in *; simpl in *; lia.
  - intros r rows H. apply read_page_Rows_nonempty in H.
    destruct rows; [now elim H | unfold len; simpl; lia].
Qed.

Lemma fetch_books_terminates_witness :
  fetch_loop (library 5) "rocq" None 3 (clamp_page_size 2) 50 0 [] 0
  = fetch_books (library 5) "rocq" None 3 2
  /\ final (fetch_books (library 5) "rocq" None 3 2)
     = Returned [empty_item_row; empty_item_row; empty_item_row].
Proof.
  split; [|reflexivity].
  apply (proj1 (proj2 (fetch_books_terminates (library 5) "rocq" None 3 2))).
  simpl. lia.
Defined.

(** *** The API key *)

(** C10: with the empty string as API key, [fetch_books] runs exactly as
    with no API key, and no request carries a [key] parameter. *)
Theorem empty_api_key_is_no_key (http : server) (query : string)
  (max_results page_size : Z) :
  fetch_books http query (Some "") max_results page_size
  = fetch_books http query None max_results page_size
  /\ Forall (fun p => key p = None)
            (requests (fetch_books http query (Some "") max_results page_size))
  /\ Forall (fun p => key p = None)
            (requests (fetch_books http query None max_results page_size)).
Proof.
  assert (E : fetch_books http query (Some "") max_results page_size
              = fetch_books http query None max_results page_size).
  { unfold fetch_books. now apply fetch_loop_key_param. }
  split; [exact E|]. rewrite E. split.
  all: eapply Forall_impl;
    [|apply (fetch_books_requests http query None max_results page_size)];
    simpl; intros p (_ & Hk & _); exact Hk.
Qed.

(** * Further properties of the code *)

(** ** [normalize_item]: when it raises *)

Lemma mapM_as_str_Ok_inv (l : list json) (ss : list string) :
  mapM as_str l = Ok ss -> l = map JStr ss.
Proof.
  revert ss; induction l as [|x l IH]; simpl; intros ss H.
  - injection H as <-. reflexivity.
  - ok_inv H. injection H as <-. destruct x; try discriminate.
    injection E as <-. simpl. f_equal. now apply IH.
Qed.

Lemma mapM_as_str_bad (l : list json) :
  Exists (fun x => forall s, x <> JStr s) l -> mapM as_str l = Err TypeError.
Proof.
  induction 1 as [x l Hx | x l _ IH]; simpl.
  - destruct x; try reflexivity. now elim (Hx s).
  - destruct x; try reflexivity. simpl. now rewrite IH.
Qed.

Lemma join_if_list_Err (v : json) (e : exn) : join_if_list v = Err e -> e = TypeError.
Proof.
  destruct v; simpl; try discriminate. unfold comma_join. intros H.
  assert (R : raises_only (fun e => e = TypeError) (mapM as_str l)).
  { apply raises_only_mapM. intros []; simpl; auto. }
  destruct (mapM as_str l) as [ss|e']; simpl in *; [discriminate H|].
  injection H as <-. exact R.
Qed.

Lemma joined_field_bad (v : json) (l : list json) :
  v = JList l -> Exists (fun x => forall s, x <> JStr s) l ->
  joined_field v = Err TypeError.
Proof.
  intros -> Hex. unfold joined_field, py_or.
  destruct l as [|x l]; [inversion Hex|]. cbn [truthy join_if_list].
  unfold comma_join. now rewrite mapM_as_str_bad.
Qed.

Lemma joinable_iff (v : json) : joinable v <-> exists w, joined_field v = Ok w.
Proof.
  split.
  - intros Hj. unfold joined_field, py_or. destruct (truthy v) eqn:Ht.
    + destruct v; simpl; eauto.
      specialize (Hj l eq_refl). unfold comma_join.
      assert (exists ss, l = map JStr ss) as [ss ->].
      { clear Ht. induction Hj as [|x l [s ->] _ [ss ->]].
        - now exists [].
        - now exists (s :: ss). }
      rewrite mapM_as_str_strings. simpl. eauto.
    + exists (JStr ""). reflexivity.
  - intros [w H] l ->. apply joined_field_Ok_rule in H.
    inversion H as [v Hf | ss Hss | v Ht Hnl]; subst.
    + destruct l; [constructor | discriminate Hf].
    + apply Forall_forall. intros x Hx. apply in_map_iff in Hx as (s & <- & _). eauto.
    + now elim (Hnl l).
Qed.

(** X1: [normalize_item] raises nothing but [AttributeError] and [TypeError],
    and it raises [AttributeError] on every item that is not a mapping. *)
Theorem normalize_item_errors (item : json) :
  (forall e, normalize_item item = Err e -> e = AttributeError \/ e = TypeError)
  /\ ((forall d, item <> JDict d) -> normalize_item item = Err AttributeError).
Proof.
  split.
  - intros e H. pose proof (normalize_item_raises item) as R.
    rewrite H in R. exact R.
  - intros Hd. destruct item; try reflexivity. now elim (Hd d).
Qed.

Lemma normalize_item_errors_witness :
  normalize_item (JStr "a") = Err AttributeError
  /\ normalize_item JNull = Err AttributeError
  /\ normalize_item (JList [JDict []]) = Err AttributeError.
Proof.
  split; [|split].
  - apply (proj2 (normalize_item_errors (JStr "a"))). discriminate.
  - apply (proj2 (normalize_item_errors JNull)). discriminate.
  - apply (proj2 (normalize_item_errors (JList [JDict []]))). discriminate.
Defined.

(** X2: [normalize_item] returns a row exactly for the items that are a mapping
    whose [volumeInfo], [saleInfo] and [accessInfo] are each a mapping or a
    falsy value, and whose [authors] and [categories], when lists, hold only
    strings. *)
Theorem normalize_item_succeeds_iff (item : json) :
  (exists r, normalize_item item = Ok r)
  <-> exists d vol sale acc,
        item = JDict d
        /\ sub_mapping d "volumeInfo" = JDict vol
        /\ sub_mapping d "saleInfo" = JDict sale
        /\ sub_mapping d "accessInfo" = JDict acc
        /\ joinable (dict_get vol "authors")
        /\ joinable (dict_get vol "categories").
Proof.
  split.
  - intros [r H].
    apply normalize_item_Ok_inv in H
      as (d & vol & sale & acc & a & c & -> & Hv & Hs & Ha & Hja & Hjc & _).
    exists d, vol, sale, acc. repeat split; auto; apply joinable_iff; eauto.
  - intros (d & vol & sale & acc & -> & Hv & Hs & Ha & Hja & Hjc).
    apply joinable_iff in Hja as [a Hja]. apply joinable_iff in Hjc as [c Hjc].
    exists (row_of d vol sale acc a c). now apply normalize_item_Ok_intro.
Qed.

(** X3: A list under [authors] or [categories] that holds something other than
    a string makes [normalize_item] raise [TypeError], whatever the rest of
    the item is. *)
Theorem normalize_item_non_string_element (d vol : pydict) (l : list json) :
  sub_mapping d "volumeInfo" = JDict vol ->
  dict_get vol "authors" = JList l \/ dict_get vol "categories" = JList l ->
  Exists (fun x => forall s, x <> JStr s) l ->
  normalize_item (JDict d) = Err TypeError.
Proof.
  intros Hv Hl Hex. unfold normalize_item.
  cbn [py_get_default py_get bind]. fold (sub_mapping d "volumeInfo"). rewrite Hv.
  cbn [py_get_default py_get bind].
  fold (dict_get vol "authors") (dict_get vol "categories").
  fold (joined_field (dict_get vol "authors")).
  fold (joined_field (dict_get vol "categories")).
  destruct Hl as [Hl | Hl].
  - now rewrite (joined_field_bad _ _ Hl Hex).
  - rewrite (joined_field_bad _ _ Hl Hex).
    destruct (joined_field (dict_get vol "authors")) as [a|e] eqn:Ha; simpl.
    + reflexivity.
    + apply join_if_list_Err in Ha. now subst.
Qed.

Lemma normalize_item_non_string_element_witness :
  normalize_item
    (JDict [("volumeInfo", JDict [("authors", JList [JStr "A"; JInt 7])])])
  = Err TypeError.
Proof.
  apply (normalize_item_non_string_element _ [("authors", JList [JStr "A"; JInt 7])]
           [JStr "A"; JInt 7]).
  - reflexivity.
  - left. reflexivity.
  - apply Exists_cons_tl, Exists_cons_hd. discriminate.
Defined.

(** ** [to_dataframe] *)





(** X5: Under [--no-desc] the frame loses exactly its last column: the labels
    are the first sixteen of [cols], and every record loses its last
    cell. *)
Theorem drop_description_drops_last_column (rows : list row) :
  existsb (String.eqb "description") (columns (to_dataframe rows)) = true
  /\ drop_description (to_dataframe rows)
     = {| columns := removelast cols;
          data := map (@removelast (option json)) (data (to_dataframe rows)) |}
  /\ ~ In "description" (columns (drop_description (to_dataframe rows)))
  /\ List.length (data (drop_description (to_dataframe rows))) = List.length rows.
Proof.
  assert (E : drop_description (to_dataframe rows)
              = {| columns := removelast cols;
                   data := map (@removelast (option json))
                               (data (to_dataframe rows)) |}).
  { unfold drop_description, to_dataframe. cbn [columns data]. f_equal.
    rewrite !map_map. apply map_ext. intros r. reflexivity. }
  split; [reflexivity | split; [exact E | split]].
  - rewrite E. cbn [columns]. intros H. vm_compute in H.
    repeat (destruct H as [H | H]; [discriminate H|]). exact H.
  - rewrite E. unfold to_dataframe. cbn [data]. now rewrite !length_map.
Qed.

(** ** [fetch_books]: one page *)

(** X6: A page yields rows exactly when its status is 200, its envelope is a
    mapping, its [items] is a non-empty list and every item normalizes; it
    then yields one row per item, in the order of the items. *)
Theorem read_page_rows_iff (r : response) (rows : list row) :
  read_page r = Ok (Rows rows)
  <-> status_code r = 200
      /\ exists d l,
           json_body r = Some (JDict d)
           /\ lookup "items" d = Some (JList l)
           /\ l <> []
           /\ mapM normalize_item l = Ok rows
           /\ List.length rows = List.length l.
Proof.
  split.
  - intros H. split; [eapply read_page_Ok_status; eassumption|].
    unfold read_page in H.
    destruct (negb (status_code r =? 200)); [discriminate|].
    ok_inv H. destruct (json_body r) as [data|]; [|discriminate].
    injection E as <-. apply py_get_Ok_inv in E0 as (d & -> & ->).
    unfold dict_get_default, py_or in H.
    destruct (lookup "items" d) as [v|] eqn:Hv; [|discriminate H].
    destruct (truthy v) eqn:Ht; [|discriminate H]. rewrite Ht in H. simpl in H.
    ok_inv H. injection H as <-.
    destruct v; simpl in E; try discriminate; injection E as <-.
    + destruct s as [|c s]; [discriminate Ht | discriminate E0].
    + exists d, l. repeat split; auto.
      * destruct l; [discriminate Ht | discriminate].
      * eapply mapM_length; eassumption.
    + destruct d0 as [|[k v] d0]; [discriminate Ht | discriminate E0].
  - intros (Hs & d & l & Hj & Hi & Hl & Hm & _).
    unfold read_page. rewrite Hs, Hj. simpl. unfold dict_get_default, py_or.
    rewrite Hi. destruct l as [|x l]; [now elim Hl|].
    cbn [truthy negb py_iter bind]. rewrite Hm. reflexivity.
Qed.

(** ** [fetch_books]: the whole run *)

Section FetchMore.

Variable http : server.
Variable query : string.
Variable api_key : option string.
Variable max_results : Z.
Variable page_size : Z.

Let loop := fetch_loop http query api_key max_results page_size.
Let request := page_request query api_key max_results page_size.

Ltac loop_induction fuel n results start :=
  pattern fuel, n, results, start, (loop fuel n results start);
  revert fuel n results start;
  apply (fetch_loop_ind http query api_key max_results page_size);
  fold loop; fold request; cbv beta.

Lemma fetch_loop_nothing_wanted (fuel n : nat) (results : list row) (start : Z) :
  max_results <= len results ->
  loop fuel n results start = ([], Returned results).
Proof.
  intros H. unfold loop.
  destruct fuel; simpl; destruct (Z.ltb_spec (len results) max_results);
    try lia; reflexivity.
Qed.

(** Each request is determined by the pages received before it. *)
Lemma fetch_loop_request_at (fuel n : nat) (results : list row) (start : Z) :
  forall pre x post,
    fst (loop fuel n results start) = pre ++ x :: post ->
    fst x = request (results ++ rows_received pre)
                    (start + sum (map maxResults (map fst pre))).
Proof.
  unfold rows_received. loop_induction fuel n results start; simpl; intros;
    try (destruct pre as [|? [|? ?]]; discriminate).
  1-3: destruct pre as [|? [|? ?]]; try discriminate;
       injection H1 as <- _ || injection H2 as <- _;
       simpl; now rewrite app_nil_r, Z.add_0_r.
  destruct pre as [|y pre].
  - injection H5 as <- _. simpl. now rewrite app_nil_r, Z.add_0_r.
  - injection H5 as <- Ht. simpl. rewrite H1.
    rewrite (H4 _ _ _ Ht). now rewrite app_assoc, Z.add_assoc.
Qed.

(** Every exchange but the last brought at least one row. *)
Lemma fetch_loop_productive (fuel n : nat) (results : list row) (start : Z) :
  Forall productive (removelast (fst (loop fuel n results start))).
Proof.
  loop_induction fuel n results start; intros; cbn [fst];
    try (simpl; constructor).
  destruct t as [|y t]; [simpl; constructor|].
  change (removelast ((request results start, Reply r) :: y :: t))
    with ((request results start, Reply r) :: removelast (y :: t)).
  constructor; [|exact H4].
  unfold productive. simpl. now rewrite H1.
Qed.

(** How the run ends is decided by its last exchange. *)
Lemma fetch_loop_outcome (fuel n : nat) (results : list row) (start : Z) :
  max_results - len results <= Z.of_nat fuel ->
  (fst (loop fuel n results start) = [] ->
   snd (loop fuel n results start) = Returned results)
  /\ (forall pre p y,
         fst (loop fuel n results start) = pre ++ [(p, y)] ->
         snd (loop fuel n results start)
         = match y with
           | ConnectionFailed => Raised RequestException
           | Reply r =>
             match read_page r with
             | Err e => Raised e
             | Ok _ => Returned
                         (results ++ rows_received (fst (loop fuel n results start)))
             end
           end).
Proof.
  unfold rows_received. loop_induction fuel n results start; simpl; intros.
  - split; [reflexivity|]. intros [|? ?] ? ? [=].
  - lia.
  - split; [discriminate|]. intros [|? [|? ?]] rq rp [=]; subst. reflexivity.
  - split; [discriminate|]. intros [|? [|? ?]] rq rp [=]; subst. now rewrite H1.
  - split; [discriminate|]. intros [|? [|? ?]] rq rp [=]; subst.
    rewrite H1. simpl. now rewrite app_nil_r.
  - split; [discriminate|].
    assert (Hf : max_results - len (results ++ rows) <= Z.of_nat fuel).
    { rewrite len_app_rows. apply len_nonempty in H2. lia. }
    destruct (H4 Hf) as [Hnil Hlast]. rewrite H1.
    intros [|z pre] rq y Ht.
    + injection Ht as <- <- ->. rewrite H1. rewrite (Hnil eq_refl). simpl.
      now rewrite app_nil_r.
    + injection Ht as _ Ht. rewrite (Hlast _ _ _ Ht).
      destruct y as [r'|]; [|reflexivity].
      destruct (read_page r'); [|reflexivity]. now rewrite app_assoc.
Qed.

(** When every page is full, exactly the wanted number of rows comes
    back. *)
Lemma fetch_loop_full_pages (fuel n : nat) (results : list row) (start : Z) :
  1 <= page_size ->
  Forall full_page (fst (loop fuel n results start)) ->
  len results <= Z.max 0 max_results ->
  forall rows,
    snd (loop fuel n results start) = Returned rows ->
    len rows = Z.max 0 max_results.
Proof.
  intros Hps. loop_induction fuel n results start; simpl; intros;
    try discriminate.
  - injection H2 as <-. unfold len in *. lia.
  - exfalso. apply Forall_inv in H2. unfold full_page in H2. simpl in H2.
    rewrite H1 in H2. unfold request, page_request, len in *. simpl in *. lia.
  - inversion H5 as [|? ? Hhd Htl]; subst. unfold full_page in Hhd.
    simpl in Hhd. rewrite H1 in Hhd.
    apply H4; auto. rewrite len_app_rows.
    unfold request, page_request in Hhd. simpl in Hhd. lia.
Qed.

End FetchMore.

Lemma fetch_books_nothing_wanted_witness :
  fetch_books generous "rocq" (Some "k") 0 40 = ([], Returned [])
  /\ fetch_books failing "rocq" None (-3) 40 = ([], Returned []).
Proof.
  split.
  - apply (fetch_books_nothing_wanted generous "rocq" (Some "k") 0 40). lia.
  - apply (fetch_books_nothing_wanted failing "rocq" None (-3) 40). lia.
Defined.

Lemma fetch_books_fetch_order_witness :
  [empty_item_row; empty_item_row; empty_item_row]
  = rows_received (fst (fetch_books (library 5) "rocq" None 3 2)).
Proof.
  apply (fetch_books_fetch_order (library 5) "rocq" None 3 2). reflexivity.
Defined.

Lemma fetch_books_length_bound_witness :
  len [empty_item_row; empty_item_row; empty_item_row] <= Z.max 0 3.
Proof.
  apply (fetch_books_length_bound (library 5) "rocq" None 3 2).
  - let t := eval vm_compute in (fst (fetch_books (library 5) "rocq" None 3 2)) in
    change (fst (fetch_books (library 5) "rocq" None 3 2)) with t.
    repeat constructor; vm_compute; discriminate.
  - reflexivity.
Defined.

(** X10: Each request is determined by the pages received before it: it carries
    the caller's query, the API key when there is one, as [startIndex] the
    sum of the page sizes requested so far, and as [maxResults] the smaller
    of the clamped page size and the number of rows still missing. *)
Theorem fetch_books_request_at (http : server) (query : string)
  (api_key : option string) (max_results page_size : Z)
  (pre : list exchange) (x : exchange) (post : list exchange) :
  fst (fetch_books http query api_key max_results page_size) = pre ++ x :: post ->
  fst x = {| q := query;
             startIndex := sum (map maxResults (map fst pre));
             maxResults := Z.min (clamp_page_size page_size)
                                 (max_results - len (rows_received pre));
             key := key_param api_key |}.
Proof.
  unfold fetch_books. intros H.
  apply fetch_loop_request_at in H. exact H.
Qed.

Lemma fetch_books_request_at_witness :
  map fst (fst (fetch_books (library 9) "rocq" (Some "k") 5 2))
  = [ {| q := "rocq"; startIndex := 0; maxResults := 2; key := Some "k" |};
      {| q := "rocq"; startIndex := 2; maxResults := 2; key := Some "k" |};
      {| q := "rocq"; startIndex := 4; maxResults := 1; key := Some "k" |} ]
  /\ exists (x : exchange) (pre : list exchange),
       fst x = {| q := "rocq";
                  startIndex := sum (map maxResults (map fst pre));
                  maxResults := Z.min (clamp_page_size 2)
                                      (5 - len (rows_received pre));
                  key := key_param (Some "k") |}
       /\ List.length pre = 2%nat
       /\ maxResults (fst x) = 1.
Proof.
  split; [reflexivity|].
  pose (t := fst (fetch_books (library 9) "rocq" (Some "k") 5 2)).
  exists (nth 2 t (Build_params "" 0 0 None, ConnectionFailed)), (firstn 2 t).
  split; [|split; reflexivity].
  exact (fetch_books_request_at (library 9) "rocq" (Some "k") 5 2
           (firstn 2 t) (nth 2 t (Build_params "" 0 0 None, ConnectionFailed)) []
           eq_refl).
Defined.

(** X11: No request follows a transport failure, an error response, an
    unparsable body or an empty page: every exchange but the last of a run
    brought at least one row. *)
Theorem fetch_books_stops_when_unproductive (http : server) (query : string)
  (api_key : option string) (max_results page_size : Z) :
  Forall productive
         (removelast (fst (fetch_books http query api_key max_results page_size))).
Proof.
  unfold fetch_books. apply fetch_loop_productive.
Qed.

(** X12: How a run ends is decided by its last exchange: with no exchange at all
    the result is empty; a transport failure, or whatever the last page
    raises, is raised by [fetch_books]; otherwise the rows of all the pages
    are returned. *)
Theorem fetch_books_outcome (http : server) (query : string)
  (api_key : option string) (max_results page_size : Z) :
  (fst (fetch_books http query api_key max_results page_size) = [] ->
   final (fetch_books http query api_key max_results page_size) = Returned [])
  /\ (forall pre p y,
         fst (fetch_books http query api_key max_results page_size)
         = pre ++ [(p, y)] ->
         final (fetch_books http query api_key max_results page_size)
         = match y with
           | ConnectionFailed => Raised RequestException
           | Reply r =>
             match read_page r with
             | Err e => Raised e
             | Ok _ =>
               Returned (rows_received
                           (fst (fetch_books http query api_key max_results page_size)))
             end
           end).
Proof.
  unfold final, fetch_books.
  apply (fetch_loop_outcome http query api_key max_results
           (clamp_page_size page_size) (Z.to_nat max_results) 0 [] 0).
  unfold len. simpl. lia.
Qed.

Lemma fetch_books_outcome_witness :
  final (fetch_books flaky "rocq" None 5 2) = Raised RequestException
  /\ final (fetch_books not_json "rocq" None 5 2) = Raised JSONDecodeError.
Proof.
  split.
  - exact (proj2 (fetch_books_outcome flaky "rocq" None 5 2)
             [({| q := "rocq"; startIndex := 0; maxResults := 2; key := None |},
               Reply {| status_code := 200; text := "";
                        json_body := Some (JDict [("items",
                                             JList [JDict []; JDict []])]) |})]
             {| q := "rocq"; startIndex := 2; maxResults := 2; key := None |}
             ConnectionFailed eq_refl).
  - exact (proj2 (fetch_books_outcome not_json "rocq" None 5 2)
             [] {| q := "rocq"; startIndex := 0; maxResults := 2; key := None |}
             (Reply {| status_code := 200; text := "<html>"; json_body := None |})
             eq_refl).
Defined.

(** X13: When every page received is full (holds exactly the number of items
    asked for), [fetch_books] returns exactly [max_results] rows (none when
    [max_results] is negative). *)
Theorem fetch_books_full_pages (http : server) (query : string)
  (api_key : option string) (max_results page_size : Z) (rows : list row) :
  Forall full_page (fst (fetch_books http query api_key max_results page_size)) ->
  final (fetch_books http query api_key max_results page_size) = Returned rows ->
  len rows = Z.max 0 max_results.
Proof.
  unfold final, fetch_books. intros Hfull H.
  eapply fetch_loop_full_pages; [| exact Hfull | | exact H].
  - apply clamp_page_size_range.
  - unfold len. simpl. lia.
Qed.

Lemma fetch_books_full_pages_witness :
  len [empty_item_row; empty_item_row; empty_item_row; empty_item_row; empty_item_row]
  = Z.max 0 5.
Proof.
  apply (fetch_books_full_pages (library 9) "rocq" None 5 2).
  - let t := eval vm_compute in (fst (fetch_books (library 9) "rocq" None 5 2)) in
    change (fst (fetch_books (library 9) "rocq" None 5 2)) with t.
    repeat constructor.
  - reflexivity.
Defined.

(** ** [main] *)

Lemma py_lstrip_starts_clean (s : string) : starts_clean (py_lstrip s) = true.
Proof.
  induction s as [|c s IH]; simpl; [reflexivity|].
  destruct (is_space c) eqn:E; [exact IH | simpl; now rewrite E].
Qed.

Lemma py_rstrip_ends_clean (s : string) : ends_clean (py_rstrip s) = true.
Proof.
  induction s as [|c s IH]; simpl; [reflexivity|].
  destruct (py_rstrip s) as [|c' t] eqn:Et.
  - simpl. destruct (is_space c) eqn:E; simpl; [reflexivity | now rewrite E].
  - rewrite andb_false_r. exact IH.
Qed.

Lemma py_rstrip_starts_clean (s : string) :
  starts_clean s = true -> starts_clean (py_rstrip s) = true.
Proof.
  destruct s as [|c s]; simpl; [reflexivity|]. intros H.
  destruct (is_space c && String.eqb (py_rstrip s) ""); [reflexivity | exact H].
Qed.

Lemma py_lstrip_all_space (s : string) : all_space s = true -> py_lstrip s = "".
Proof.
  induction s as [|c s IH]; simpl; [reflexivity|].
  destruct (is_space c); simpl; [exact IH | discriminate].
Qed.

Lemma api_key_of_truthy (environ : string -> option string) :
  key_param (api_key_of environ) = api_key_of environ.
Proof.
  unfold api_key_of.
  destruct (truthy (JStr (py_strip (getenv environ "GOOGLE_BOOKS_API_KEY" "")))) eqn:E;
    [cbn [key_param]; now rewrite E | reflexivity].
Qed.

Lemma drop_description_to_dataframe (rows : list row) :
  drop_description (to_dataframe rows)
  = {| columns := removelast cols;
       data := map (@removelast (option json)) (data (to_dataframe rows)) |}.
Proof.
  unfold drop_description, to_dataframe. cbn [columns data]. f_equal.
  rewrite !map_map. apply map_ext. intros r. reflexivity.
Qed.

Lemma main_frame (no_desc : bool) (rows : list row) :
  (if no_desc && existsb (String.eqb "description") (columns (to_dataframe rows))
   then drop_description (to_dataframe rows) else to_dataframe rows)
  = {| columns := if no_desc then removelast cols else cols;
       data := if no_desc
               then map (@removelast (option json)) (data (to_dataframe rows))
               else data (to_dataframe rows) |}.
Proof.
  destruct no_desc; cbn [andb].
  - change (existsb (String.eqb "description") (columns (to_dataframe rows)))
      with true.
    cbv iota. apply drop_description_to_dataframe.
  - reflexivity.
Qed.

Lemma main_run_finishes (http : server) (environ : string -> option string) (a : args) :
  final (main_run http environ a) <> OutOfFuel.
Proof.
  unfold final, main_run, fetch_books.
  apply fetch_loop_fuel_enough. unfold len. simpl. lia.
Qed.

(** Split on the way [main] goes: on the outcome of the fetch, then on the
    tests of [main]. *)
Ltac main_cases Hf :=
  unfold main_ending, main_effects, main_trace, main; cbv zeta;
  match goal with
  | |- context [fetch_books ?h (arg_q ?a) (api_key_of ?e) _ _] =>
    change (fetch_books h (arg_q a) (api_key_of e) (arg_max a) (arg_page_size a))
      with (main_run h e a) in *
  end;
  match goal with
  | |- context [final (main_run ?h ?e ?a)] =>
    pose proof (main_run_finishes h e a) as Hfin;
    destruct (final (main_run h e a)) as [[|row1 rest1]|err1|] eqn:Hf;
    [ | | | now elim Hfin]
  end.

(** X14: [main] always comes to an end, with status 1 exactly when the fetch
    raised and with [sys.exit(0)] exactly when it returned no row; it falls
    off its end, or dies of an uncaught exception of the operating system,
    only with at least one row. *)
Theorem main_exit_status (http : server) (environ : string -> option string)
  (dirname : string -> string) (makedirs : string -> bool)
  (to_csv : DataFrame -> string -> bool) (builtin_str : exn -> string) (a : args) :
  main_trace (main http environ dirname makedirs to_csv builtin_str a)
  = fst (main_run http environ a)
  /\ main_ending (main http environ dirname makedirs to_csv builtin_str a)
     <> Unfinished
  /\ (main_ending (main http environ dirname makedirs to_csv builtin_str a)
      = SysExit 1
      <-> exists e, final (main_run http environ a) = Raised e)
  /\ (main_ending (main http environ dirname makedirs to_csv builtin_str a)
      = SysExit 0
      <-> final (main_run http environ a) = Returned [])
  /\ (main_ending (main http environ dirname makedirs to_csv builtin_str a)
      = Returns
      \/ main_ending (main http environ dirname makedirs to_csv builtin_str a)
         = Uncaught
      <-> exists r rows, final (main_run http environ a) = Returned (r :: rows)).
Proof.
  main_cases Hf.
  - repeat split; try discriminate; eauto;
      try (intros [? [=]]); try (intros [[=] | [=]]); try (intros (? & ? & [=])).
  - repeat match goal with
           | |- context [if ?b then _ else _] => destruct b
           end;
      simpl; (repeat split; try discriminate; eauto;
              try (intros [? [=]]); try (intros [[=] | [=]])).
  - repeat split; try discriminate; eauto;
      try (intros [? [=]]); try (intros [[=] | [=]]); try (intros (? & ? & [=])).
Qed.

(** X15: [main] creates a directory or writes a file only when [--out] was
    given and the fetch returned at least one row: never after a failed
    fetch, and never for an empty result. *)
Theorem main_touches_disk_only_with_rows (http : server)
  (environ : string -> option string) (dirname : string -> string)
  (makedirs : string -> bool) (to_csv : DataFrame -> string -> bool)
  (builtin_str : exn -> string) (a : args) :
  existsb touches_disk
          (main_effects (main http environ dirname makedirs to_csv builtin_str a))
  = true ->
  arg_out a <> ""
  /\ exists r rows, final (main_run http environ a) = Returned (r :: rows).
Proof.
  main_cases Hf; try discriminate.
  destruct (arg_out a) as [|c out] eqn:Ho; simpl; [discriminate|].
  intros _. split; [discriminate | eauto].
Qed.

Lemma main_touches_disk_only_with_rows_witness :
  arg_out sample_args <> ""
  /\ exists r rows,
       final (main_run (library 2) sample_environ sample_args) = Returned (r :: rows).
Proof.
  apply (main_touches_disk_only_with_rows (library 2) sample_environ
           (fun _ => "data") (fun _ => true) (fun _ _ => true) (fun _ => "")
           sample_args).
  reflexivity.
Defined.

(** X16: The frame [main] writes has one record per row fetched, in the columns
    of [cols], without the last one ([description]) under [--no-desc]; the
    directory of the path is created first, and the count printed afterwards
    is the number of rows fetched. *)
Theorem main_writes_what_was_fetched (http : server)
  (environ : string -> option string) (dirname : string -> string)
  (makedirs : string -> bool) (to_csv : DataFrame -> string -> bool)
  (builtin_str : exn -> string) (a : args) (df : DataFrame) (path : string) :
  In (WriteCsv df path)
     (main_effects (main http environ dirname makedirs to_csv builtin_str a)) ->
  path = arg_out a
  /\ exists rows,
       final (main_run http environ a) = Returned rows
       /\ columns df = (if arg_no_desc a then removelast cols else cols)
       /\ List.length (data df) = List.length rows
       /\ data df = (if arg_no_desc a
                     then map (@removelast (option json)) (data (to_dataframe rows))
                     else data (to_dataframe rows))
       /\ (exists rest,
              main_effects (main http environ dirname makedirs to_csv builtin_str a)
              = MakeDirs (dirname path) :: WriteCsv df path :: rest
              /\ (to_csv df path = true ->
                  rest = [PrintStdout ("[OK] Wrote " ++ py_str_int (len rows)
                                       ++ " rows to " ++ path)%string])).
Proof.
  main_cases Hf; cbn [fst snd]; try (intros [[=] | []]).
  rewrite main_frame. set (rows := row1 :: rest1) in *.
  set (df' := {| columns := if arg_no_desc a then removelast cols else cols;
                 data := if arg_no_desc a
                         then map (@removelast (option json)) (data (to_dataframe rows))
                         else data (to_dataframe rows) |}).
  assert (Hlen : List.length (data df') = List.length rows).
  { unfold df', to_dataframe. cbn [data].
    destruct (arg_no_desc a); now rewrite !length_map. }
  destruct (truthy (JStr (arg_out a)));
    [destruct (makedirs (dirname (arg_out a)));
     [destruct (to_csv df' (arg_out a)) eqn:Hw|]|];
    cbn [fst snd In].
  - intros [[=] | [[= <- <-] | [[=] | []]]].
    split; [reflexivity|]. exists rows. repeat split; auto.
    eexists. split; [reflexivity|]. intros _. unfold len. now rewrite Hlen.
  - intros [[=] | [[= <- <-] | []]].
    split; [reflexivity|]. exists rows. repeat split; auto.
    eexists. split; [reflexivity|]. rewrite Hw. discriminate.
  - intros [[=] | []].
  - intros [[=] | []].
Qed.

Lemma main_writes_what_was_fetched_witness :
  main_effects (main (library 2) sample_environ (fun _ => "data")
                     (fun _ => true) (fun _ _ => true) (fun _ => "") sample_args)
  = [ MakeDirs "data";
      WriteCsv {| columns := removelast cols;
                  data := map (@removelast (option json))
                              (data (to_dataframe [empty_item_row; empty_item_row])) |}
               "data/books.csv";
      PrintStdout "[OK] Wrote 2 rows to data/books.csv" ]
  /\ exists rows,
       final (main_run (library 2) sample_environ sample_args) = Returned rows
       /\ List.length rows = 2%nat.
Proof.
  split; [reflexivity|].
  destruct (main_writes_what_was_fetched (library 2) sample_environ
              (fun _ => "data") (fun _ => true) (fun _ _ => true) (fun _ => "")
              sample_args
              {| columns := removelast cols;
                 data := map (@removelast (option json))
                             (data (to_dataframe [empty_item_row; empty_item_row])) |}
              "data/books.csv")
    as (_ & rows & Hr & _ & Hl & _).
  - right; left. reflexivity.
  - exists rows. split; [exact Hr|]. rewrite <- Hl. reflexivity.
Defined.

(** X17: With [--max] zero or negative, [main] sends no request, writes nothing
    even when [--out] is given, reports that nothing was found and exits with
    status 0. *)
Theorem main_nothing_wanted (http : server) (environ : string -> option string)
  (dirname : string -> string) (makedirs : string -> bool)
  (to_csv : DataFrame -> string -> bool) (builtin_str : exn -> string) (a : args) :
  arg_max a <= 0 ->
  main http environ dirname makedirs to_csv builtin_str a
  = ([], [PrintStdout "[INFO] No results found."], SysExit 0).
Proof.
  intros H. unfold main. cbv zeta. unfold fetch_books, final.
  rewrite fetch_loop_nothing_wanted by (unfold len; simpl; lia).
  reflexivity.
Qed.

Lemma main_nothing_wanted_witness :
  main generous sample_environ (fun _ => "data") (fun _ => true)
       (fun _ _ => true) (fun _ => "")
       {| arg_q := "rocq"; arg_max := 0; arg_page_size := 40;
          arg_out := "data/books.csv"; arg_no_desc := false |}
  = ([], [PrintStdout "[INFO] No results found."], SysExit 0).
Proof.
  apply main_nothing_wanted. simpl. lia.
Defined.

(** X18: When the last response of the fetch has a status other than 200,
    [main] prints to the error stream the line that names the status and the
    first 200 characters of the body, does nothing else, and exits with
    status 1. *)
Theorem main_reports_http_error (http : server) (environ : string -> option string)
  (dirname : string -> string) (makedirs : string -> bool)
  (to_csv : DataFrame -> string -> bool) (builtin_str : exn -> string) (a : args)
  (pre : list exchange) (p : params) (r : response) :
  fst (main_run http environ a) = pre ++ [(p, Reply r)] ->
  status_code r <> 200 ->
  main_effects (main http environ dirname makedirs to_csv builtin_str a)
  = [PrintStderr ("[ERROR] Failed to fetch books: HTTP "
                  ++ py_str_int (status_code r) ++ ": "
                  ++ py_prefix 200 (text r))%string]
  /\ main_ending (main http environ dirname makedirs to_csv builtin_str a)
     = SysExit 1.
Proof.
  intros Ht Hs.
  assert (Hf : final (main_run http environ a)
               = Raised (RuntimeError (http_error_message r))).
  { unfold final, main_run, fetch_books in *.
    destruct (fetch_loop_outcome http (arg_q a) (api_key_of environ) (arg_max a)
                (clamp_page_size (arg_page_size a)) (Z.to_nat (arg_max a)) 0 [] 0)
      as [_ Hlast]; [unfold len; simpl; lia|].
    rewrite (Hlast _ _ _ Ht).
    assert (E : read_page r = Err (RuntimeError (http_error_message r)))
      by (apply read_page_RuntimeError; auto).
    now rewrite E. }
  unfold main_effects, main_ending, main. cbv zeta.
  change (fetch_books http (arg_q a) (api_key_of environ) (arg_max a)
                      (arg_page_size a)) with (main_run http environ a).
  rewrite Hf. split; reflexivity.
Qed.

Lemma main_reports_http_error_witness :
  main_effects (main no_content sample_environ (fun _ => "data") (fun _ => true)
                     (fun _ _ => true) (fun _ => "") sample_args)
  = [PrintStderr "[ERROR] Failed to fetch books: HTTP 204: "]
  /\ main_ending (main no_content sample_environ (fun _ => "data") (fun _ => true)
                       (fun _ _ => true) (fun _ => "") sample_args)
     = SysExit 1.
Proof.
  apply (main_reports_http_error no_content sample_environ (fun _ => "data")
           (fun _ => true) (fun _ _ => true) (fun _ => "") sample_args []
           {| q := "rocq"; startIndex := 0; maxResults := 2; key := Some "k-123" |}
           {| status_code := 204; text := ""; json_body := None |}).
  - reflexivity.
  - discriminate.
Defined.

(** X19: The API key [main] passes on is the value of [GOOGLE_BOOKS_API_KEY]
    with the surrounding white space removed; every request carries it,
    unless it is empty (the variable unset, empty, or all white space), in
    which case no request carries a key. *)
Theorem main_api_key (http : server) (environ : string -> option string)
  (dirname : string -> string) (makedirs : string -> bool)
  (to_csv : DataFrame -> string -> bool) (builtin_str : exn -> string) (a : args) :
  Forall (fun x => key (fst x) = api_key_of environ)
         (main_trace (main http environ dirname makedirs to_csv builtin_str a))
  /\ (api_key_of environ = None
      <-> py_strip (getenv environ "GOOGLE_BOOKS_API_KEY" "") = "")
  /\ (forall s, api_key_of environ = Some s ->
                s = py_strip (getenv environ "GOOGLE_BOOKS_API_KEY" "")
                /\ s <> ""
                /\ starts_clean s = true /\ ends_clean s = true)
  /\ (all_space (getenv environ "GOOGLE_BOOKS_API_KEY" "") = true ->
      api_key_of environ = None).
Proof.
  assert (Hnone : api_key_of environ = None
                  <-> py_strip (getenv environ "GOOGLE_BOOKS_API_KEY" "") = "").
  { unfold api_key_of. simpl.
    destruct (String.eqb_spec (py_strip (getenv environ "GOOGLE_BOOKS_API_KEY" "")) "")
      as [E|E]; simpl; split; auto; try discriminate. intros E'. now elim E. }
  split; [|split; [exact Hnone | split]].
  - assert (Ht : main_trace (main http environ dirname makedirs to_csv builtin_str a)
                 = fst (main_run http environ a)).
    { main_cases Hf; repeat match goal with
                            | |- context [if ?b then _ else _] => destruct b
                            end; reflexivity. }
    rewrite Ht. unfold main_run, fetch_books.
    pose proof (clamp_page_size_range (arg_page_size a)).
    eapply Forall_impl;
      [|apply fetch_loop_requests
          with (page_size := clamp_page_size (arg_page_size a)); lia].
    simpl. intros x (_ & Hk & _). now rewrite Hk, api_key_of_truthy.
  - intros s Hs. unfold api_key_of in Hs. simpl in Hs.
    destruct (String.eqb_spec (py_strip (getenv environ "GOOGLE_BOOKS_API_KEY" "")) "")
      as [E|E]; simpl in Hs; [discriminate|].
    injection Hs as <-. repeat split; auto.
    + unfold py_strip. apply py_rstrip_starts_clean, py_lstrip_starts_clean.
    + unfold py_strip. apply py_rstrip_ends_clean.
  - intros Hall. apply Hnone. unfold py_strip.
    now rewrite py_lstrip_all_space.
Qed.

Lemma main_api_key_witness :
  api_key_of sample_environ = Some "k-123"
  /\ api_key_of (fun _ => Some (String (ascii_of_nat 9) "  ")) = None
  /\ api_key_of (fun _ => None) = None.
Proof.
  split; [reflexivity | split; [|reflexivity]].
  apply (proj2 (proj2 (proj2 (main_api_key generous
           (fun _ => Some (String (ascii_of_nat 9) "  "))
           (fun _ => "data") (fun _ => true) (fun _ _ => true) (fun _ => "")
           sample_args)))).
  reflexivity.
Defined.
